(** * A shallow embedding of the budget tracker [datadog.py]

    The program keeps a dictionary of budget categories, each with a limit
    and an accumulated spend, asks the user for confirmation on the
    terminal, prints what it did and stores the dictionary in one JSON file.

    - Python [float] is IEEE 754 binary64: the kernel's primitive [float].
    - Python [str] is taken on the code points below 256, one [ascii] per
      code point, with [str.strip] and [str.lower] as Python defines them on
      that range.
    - A [dict] keeps insertion order: an association list with unique keys.
    - [input] and [print] act on a [world]: the lines still to be read from
      standard input, the messages written so far, and the data file.  Each
      message is the [print] or [input] call of the source with the values it
      interpolates, not the formatted text.
    - An exception stops a computation and leaves the world as it was at
      that point.  No method of the source mutates its object before an
      operation that can raise, so a method that raises leaves [self] as it
      was, and a method that returns gives the new [self]. *)

From Stdlib Require Import List String Ascii NArith ZArith Bool Floats Lia.
Import ListNotations.
Local Open Scope string_scope.

(** ** Strings *)

Module PyStr.

(** [str.isspace] on one code point below 256: TAB..CR, FS..US, space,
    NEL (0x85) and the no-break space (0xA0). *)
Definition isspace (c : ascii) : bool :=
  let n := N_of_ascii c in
  (((9 <=? n) && (n <=? 13)) || ((28 <=? n) && (n <=? 32))
   || (n =? 133) || (n =? 160))%N.

(** The code points below 256 that [str.lower] changes: A..Z and the
    Latin-1 capitals 0xC0..0xDE without the multiplication sign 0xD7. *)
Definition isupper (c : ascii) : bool :=
  let n := N_of_ascii c in
  (((65 <=? n) && (n <=? 90))
   || ((192 <=? n) && (n <=? 222) && negb (n =? 215)))%N.

Definition lower_char (c : ascii) : ascii :=
  if isupper c then ascii_of_N (N_of_ascii c + 32) else c.

Fixpoint lower (s : string) : string :=
  match s with
  | EmptyString => EmptyString
  | String c s' => String (lower_char c) (lower s')
  end.

Fixpoint lstrip (s : string) : string :=
  match s with
  | EmptyString => EmptyString
  | String c s' => if isspace c then lstrip s' else s
  end.

Fixpoint rstrip (s : string) : string :=
  match s with
  | EmptyString => EmptyString
  | String c s' =>
      match rstrip s' with
      | EmptyString => if isspace c then EmptyString else String c EmptyString
      | r => String c r
      end
  end.

Definition strip (s : string) : string := rstrip (lstrip s).

End PyStr.

(** ** Dictionaries in insertion order *)

Module Dict.

Section Ops.
Context {V : Type}.

Fixpoint get (k : string) (d : list (string * V)) : option V :=
  match d with
  | [] => None
  | (k', v) :: d' => if String.eqb k k' then Some v else get k d'
  end.

(** [k in d] *)
Definition mem (k : string) (d : list (string * V)) : bool :=
  match get k d with Some _ => true | None => false end.

(** [d[k] = v]: an existing key keeps its place, a new one goes last. *)
Fixpoint set (k : string) (v : V) (d : list (string * V)) : list (string * V) :=
  match d with
  | [] => [(k, v)]
  | (k', v') :: d' =>
      if String.eqb k k' then (k', v) :: d' else (k', v') :: set k v d'
  end.

(** [del d[k]], for a key that is present. *)
Fixpoint del (k : string) (d : list (string * V)) : list (string * V) :=
  match d with
  | [] => []
  | (k', v') :: d' => if String.eqb k k' then d' else (k', v') :: del k d'
  end.

Definition keys (d : list (string * V)) : list string := map fst d.
Definition values (d : list (string * V)) : list V := map snd d.

(** What a Python dict guarantees: no key twice. *)
Definition is_dict (d : list (string * V)) : Prop := NoDup (keys d).

End Ops.

End Dict.

(** ** Values of the JSON document *)

(** What [json.load] can return, and so what [json.dump] is given here. *)
#[local] Set Warnings "-register-all".
Inductive value : Type :=
| VNone
| VBool (b : bool)
| VInt (z : Z)
| VFloat (f : float)
| VStr (s : string)
| VList (l : list value)
| VDict (d : list (string * value)).

(** Python's [x > y] on floats. *)
Definition gt (x y : float) : bool := (y <? x)%float.

(** ** Terminal, data file, exceptions *)

(** One constructor per [print] and [input] call of the source. *)
Inductive message : Type :=
| WarnExceeds (amount : float) (name : string)   (* add_expense, overage warning *)
| AskProceed                                      (* "Type 'yes' to proceed or 'no' to cancel: " *)
| ExpenseNotAdded
| WarnExceeded (name : string)                    (* remaining *)
| CategoryExists (name : string)
| AskHelp (name : string)
| AskIncome
| AskPercent (name : string)
| InvalidPercentage
| InvalidIncome
| LimitNegative
| AddedCategory (name : string) (limit : float)
| AddedExpense (amount : float) (name : string)
| NoSuchCategory (name : string)
| AskRemove (name : string)
| RemovalCancelled
| RemovedCategory (name : string)
| SummaryBanner
| SummaryColumns
| SummaryRule
| SummaryRow (name : string) (spent limit remaining : float)
| TotalSpent (total : float).

Inductive exn : Type :=
| KeyError (key : string)
| TypeError
| AttributeError
| EOFError
| UnboundLocalError (var : string)
(** Not a Python exception: the source would go on with a value that breaks
    the annotation of the named field ([name: str], [limit: float],
    [spent: float]); the typed records below do not follow it there. *)
| BreaksAnnotation (field : string).

Inductive result (A : Type) : Type :=
| Ok (a : A)
| Raise (e : exn).
Arguments Ok {A} a.
Arguments Raise {A} e.

Record world : Type := mkWorld {
  stdin : list string;        (* lines not yet read *)
  stdout : list message;      (* written so far, oldest first *)
  disk : option value         (* budget_data.json: absent, or its document *)
}.

Definition M (A : Type) : Type := world -> result A * world.

Definition ret {A} (a : A) : M A := fun w => (Ok a, w).

Definition raise {A} (e : exn) : M A := fun w => (Raise e, w).

Definition bind {A B} (m : M A) (k : A -> M B) : M B :=
  fun w =>
    match m w with
    | (Ok a, w') => k a w'
    | (Raise e, w') => (Raise e, w')
    end.

Declare Scope py_scope.
Delimit Scope py_scope with py.
Notation "x <- m ;; k" := (bind m (fun x => k))
  (at level 61, m at next level, right associativity) : py_scope.
Notation "m ;; k" := (bind m (fun _ => k))
  (at level 61, right associativity) : py_scope.
Local Open Scope py_scope.

Definition emit (m : message) (w : world) : world :=
  mkWorld (stdin w) (stdout w ++ [m]) (disk w).

Definition print (m : message) : M unit := fun w => (Ok tt, emit m w).

(** [input(prompt)]: the prompt is written, then one line is read;
    [EOFError] at the end of the input. *)
Definition input (prompt : message) : M string :=
  fun w =>
    match stdin w with
    | [] => (Raise EOFError, emit prompt w)
    | line :: rest => (Ok line, mkWorld rest (stdout w ++ [prompt]) (disk w))
    end.

(** ** class BudgetCategory *)

Module BudgetCategory.

Record t : Type := mk { name : string; limit : float; spent : float }.

(** [BudgetCategory(name, limit)] *)
Definition init (name : string) (limit : float) : t := mk name limit 0%float.

Definition set_spent (self : t) (s : float) : t := mk (name self) (limit self) s.

Definition add_expense (self : t) (amount : float) : M t :=
  if gt (spent self + amount)%float (limit self) then
    print (WarnExceeds amount (name self)) ;;
    answer <- input AskProceed ;;
    let proceed := PyStr.lower (PyStr.strip answer) in
    if String.eqb proceed "yes" then
      ret (set_spent self (spent self + amount)%float)
    else if String.eqb proceed "no" then
      print ExpenseNotAdded ;;
      ret self
    else
      ret self
  else
    ret (set_spent self (spent self + amount)%float).

Definition remaining (self : t) : M float :=
  (if gt (spent self) (limit self) then print (WarnExceeded (name self))
   else ret tt) ;;
  ret (limit self - spent self)%float.

Definition to_dict (self : t) : list (string * value) :=
  [("name", VStr (name self));
   ("limit", VFloat (limit self));
   ("spent", VFloat (spent self))].

(** [data[key]] *)
Definition subscript (data : list (string * value)) (key : string) : result value :=
  match Dict.get key data with
  | Some v => Ok v
  | None => Raise (KeyError key)
  end.

(** The three subscripts are evaluated in the order of the source: "name",
    "limit", then "spent".  Only then are the values fitted into the typed
    record.  The source does no such fitting: on a record whose "name" is
    not a string, or whose "limit" or "spent" is not a float (an integer in
    a file edited by hand, say), it returns a category that holds those
    values, where this function stops with [BreaksAnnotation].  The two
    agree on every record with values of the annotated types, which are the
    only records [to_dict] and [save_data] write (see [from_dict_returns]
    and [from_dict_raises]). *)
Definition from_dict (data : list (string * value)) : result t :=
  match subscript data "name" with
  | Raise e => Raise e
  | Ok n =>
      match subscript data "limit" with
      | Raise e => Raise e
      | Ok l =>
          match subscript data "spent" with
          | Raise e => Raise e
          | Ok s =>
              match n, l, s with
              | VStr n', VFloat l', VFloat s' => Ok (set_spent (init n' l') s')
              | VStr _, VFloat _, _ => Raise (BreaksAnnotation "spent")
              | VStr _, _, _ => Raise (BreaksAnnotation "limit")
              | _, _, _ => Raise (BreaksAnnotation "name")
              end
          end
      end
  end.

End BudgetCategory.

(** ** class BudgetManager *)

Module BudgetManager.

Record t : Type := mk { categories : list (string * BudgetCategory.t) }.

(** [{k: BudgetCategory.from_dict(v) for k, v in data.items()}]: the items
    are taken in order; subscripting an item that is not a dict is a
    [TypeError]. *)
Fixpoint load_items (items : list (string * value))
    (acc : list (string * BudgetCategory.t))
    : result (list (string * BudgetCategory.t)) :=
  match items with
  | [] => Ok acc
  | (k, v) :: rest =>
      match v with
      | VDict data =>
          match BudgetCategory.from_dict data with
          | Ok c => load_items rest (Dict.set k c acc)
          | Raise e => Raise e
          end
      | _ => Raise TypeError
      end
  end.

(** [{k: v.to_dict() for k, v in self.categories.items()}] *)
Definition dump_items (items : list (string * BudgetCategory.t))
    : list (string * value) :=
  fold_left
    (fun acc kv => Dict.set (fst kv) (VDict (BudgetCategory.to_dict (snd kv))) acc)
    items [].

(** [json.dump] then [json.load] give back the document: the file is kept
    as the value written, not as text.  A file that is not JSON, on which
    [json.load] raises [JSONDecodeError], is therefore not among the files
    of this model. *)
Definition save_data (self : t) : M unit :=
  fun w =>
    (Ok tt, mkWorld (stdin w) (stdout w) (Some (VDict (dump_items (categories self))))).

Definition load_data (self : t) : M t :=
  fun w =>
    match disk w with
    | None => (Ok self, w)
    | Some (VDict items) =>
        match load_items items [] with
        | Ok cats => (Ok (mk cats), w)
        | Raise e => (Raise e, w)
        end
    | Some _ => (Raise AttributeError, w)
    end.

(** [BudgetManager()] *)
Definition init : M t := load_data (mk []).

Section Builtins.

(** Python's [float(s)] on a string: [None] is its [ValueError]. *)
Variable float_of_str : string -> option float.

(** Python's [sum] over floats (its rounding depends on the interpreter's
    version). *)
Variable fsum : list float -> float.

Definition add_category (self : t) (name : string) (limit : float) : M t :=
  let name := PyStr.lower (PyStr.strip name) in
  if Dict.mem name (categories self) || String.eqb name "" then
    print (CategoryExists name) ;;
    ret self
  else
    answer <- input (AskHelp name) ;;
    let help := PyStr.lower (PyStr.strip answer) in
    if String.eqb help "yes" then
      income_line <- input AskIncome ;;
      let income := PyStr.strip income_line in
      percent_line <- input (AskPercent name) ;;
      let percent := PyStr.strip percent_line in
      match float_of_str percent with
      | None => print InvalidPercentage ;; ret self
      | Some percentage =>
          if (percentage <? 0)%float || gt percentage 100 then
            print InvalidPercentage ;; ret self
          else
            match float_of_str income with
            | None => print InvalidIncome ;; ret self
            | Some income =>
                if (income <? 0)%float then
                  print InvalidIncome ;; ret self
                else
                  let limit := (income * (percentage / 100))%float in
                  let self' :=
                    mk (Dict.set name (BudgetCategory.init name limit) (categories self)) in
                  print (AddedCategory name limit) ;;
                  ret self'
            end
      end
    else if (limit <? 0)%float then
      print LimitNegative ;;
      ret self
    else
      let self' :=
        mk (Dict.set name (BudgetCategory.init name limit) (categories self)) in
      print (AddedCategory name limit) ;;
      ret self'.

Definition add_expense (self : t) (name : string) (amount : float) : M t :=
  match Dict.get name (categories self) with
  | Some category =>
      category' <- BudgetCategory.add_expense category amount ;;
      print (AddedExpense amount name) ;;
      ret (mk (Dict.set name category' (categories self)))
  | None =>
      print (NoSuchCategory name) ;;
      ret self
  end.

Definition remove_category (self : t) (name : string) : M t :=
  if Dict.mem name (categories self) then
    answer <- input (AskRemove name) ;;
    let confirmation := PyStr.lower (PyStr.strip answer) in
    if negb (String.eqb confirmation "yes") then
      print RemovalCancelled ;;
      ret self
    else
      let self' := mk (Dict.del name (categories self)) in
      print (RemovedCategory name) ;;
      ret self'
  else
    print (NoSuchCategory name) ;;
    ret self.

(** The body of the [for] loop of [show_summary], over the categories still
    to visit.  [total_spent] is the local variable of that name: [None]
    until the body has assigned it. *)
Fixpoint summary_loop (self : t) (todo : list BudgetCategory.t)
    (total_spent : option float) : M (option float) :=
  match todo with
  | [] => ret total_spent
  | category :: rest =>
      remaining <- BudgetCategory.remaining category ;;
      print (SummaryRow (BudgetCategory.name category)
               (BudgetCategory.spent category)
               (BudgetCategory.limit category) remaining) ;;
      print SummaryRule ;;
      summary_loop self rest
        (Some (fsum (map BudgetCategory.spent (Dict.values (categories self)))))
  end.

Definition show_summary (self : t) : M unit :=
  print SummaryBanner ;;
  print SummaryColumns ;;
  print SummaryRule ;;
  total_spent <- summary_loop self (Dict.values (categories self)) None ;;
  match total_spent with
  | Some total => print (TotalSpent total)
  | None => raise (UnboundLocalError "total_spent")
  end.

End Builtins.

End BudgetManager.

(** ** def main *)

Module Shell.

(** What [main] itself writes, one constructor per [print] and [input] call
    of the source, and [Core] for what a method of the manager writes. *)
Inductive shell_message : Type :=
| Welcome
| ChooseOption
| MenuAdd
| MenuRemove
| MenuExpense
| MenuSummary
| MenuSave
| AskChoice                      (* "Enter choice (1-5): " *)
| AskNewName                     (* "Enter category name (e.g., dog treats): " *)
| AskLimit (name : string)
| InvalidNumber                  (* "Please enter a valid number." *)
| AskRemoveName
| AskExpenseName
| AskAmount
| BudgetSaved
| InvalidChoice
| Core (m : message).

(** The terminal and the data file as [main] sees them. *)
Record session : Type := mkSession {
  term_in : list string;
  term_out : list shell_message;
  file : option value
}.

Definition SM (A : Type) : Type := session -> result A * session.

Definition sret {A} (a : A) : SM A := fun s => (Ok a, s).

Definition sbind {A B} (m : SM A) (k : A -> SM B) : SM B :=
  fun s =>
    match m s with
    | (Ok a, s') => k a s'
    | (Raise e, s') => (Raise e, s')
    end.

Declare Scope shell_scope.
Delimit Scope shell_scope with shell.
Notation "x <- m ;; k" := (sbind m (fun x => k))
  (at level 61, m at next level, right associativity) : shell_scope.
Notation "m ;; k" := (sbind m (fun _ => k))
  (at level 61, right associativity) : shell_scope.

Definition say (m : shell_message) : SM unit :=
  fun s => (Ok tt, mkSession (term_in s) (term_out s ++ [m]) (file s)).

Definition ask (prompt : shell_message) : SM string :=
  fun s =>
    match term_in s with
    | [] => (Raise EOFError, mkSession [] (term_out s ++ [prompt]) (file s))
    | line :: rest => (Ok line, mkSession rest (term_out s ++ [prompt]) (file s))
    end.

(** A call of a method of the manager: it reads the same input and the same
    file, and what it writes follows what has been written. *)
Definition call {A} (m : M A) : SM A :=
  fun s =>
    let (r, w) := m (mkWorld (term_in s) [] (file s)) in
    (r, mkSession (stdin w) (term_out s ++ map Core (stdout w)) (disk w)).

Section Builtins.

Variable float_of_str : string -> option float.
Variable fsum : list float -> float.

Local Open Scope shell_scope.

(** The body of [while True]: [Some manager] to go round again, [None] at
    [break].  The methods called inside [try] raise no [ValueError] of their
    own, so [except ValueError] only meets a failing [float(...)]. *)
Definition iteration (manager : BudgetManager.t) : SM (option BudgetManager.t) :=
  say ChooseOption ;;
  say MenuAdd ;;
  say MenuRemove ;;
  say MenuExpense ;;
  say MenuSummary ;;
  say MenuSave ;;
  line <- ask AskChoice ;;
  let choice := PyStr.strip line in
  if String.eqb choice "1" then
    name_line <- ask AskNewName ;;
    let name := PyStr.strip name_line in
    limit_line <- ask (AskLimit name) ;;
    match float_of_str limit_line with
    | Some limit =>
        manager' <- call (BudgetManager.add_category float_of_str manager name limit) ;;
        sret (Some manager')
    | None => say InvalidNumber ;; sret (Some manager)
    end
  else if String.eqb choice "2" then
    name_line <- ask AskRemoveName ;;
    let name := PyStr.strip name_line in
    manager' <- call (BudgetManager.remove_category manager name) ;;
    sret (Some manager')
  else if String.eqb choice "3" then
    name_line <- ask AskExpenseName ;;
    let name := PyStr.strip name_line in
    amount_line <- ask AskAmount ;;
    match float_of_str amount_line with
    | Some amount =>
        manager' <- call (BudgetManager.add_expense manager name amount) ;;
        sret (Some manager')
    | None => say InvalidNumber ;; sret (Some manager)
    end
  else if String.eqb choice "4" then
    call (BudgetManager.show_summary fsum manager) ;;
    sret (Some manager)
  else if String.eqb choice "5" then
    call (BudgetManager.save_data manager) ;;
    say BudgetSaved ;;
    sret None
  else
    say InvalidChoice ;;
    sret (Some manager).

(** The loop, for at most [fuel] rounds; [None] when they do not suffice. *)
Fixpoint main_loop (fuel : nat) (manager : BudgetManager.t) (s : session)
    : option (result unit * session) :=
  match fuel with
  | O => None
  | S fuel' =>
      match iteration manager s with
      | (Ok (Some manager'), s') => main_loop fuel' manager' s'
      | (Ok None, s') => Some (Ok tt, s')
      | (Raise e, s') => Some (Raise e, s')
      end
  end.

Definition main (fuel : nat) (s : session) : option (result unit * session) :=
  match (say Welcome ;; call BudgetManager.init) s with
  | (Ok manager, s') => main_loop fuel manager s'
  | (Raise e, s') => Some (Raise e, s')
  end.

End Builtins.

End Shell.

(** ** Stand-ins for the two builtins, for closed examples *)

Module Sample.

Definition digit (c : ascii) : option Z :=
  let n := N_of_ascii c in
  if ((48 <=? n) && (n <=? 57))%N then Some (Z.of_N n - 48)%Z else None.

Fixpoint digits (s : string) (acc : Z) : option Z :=
  match s with
  | EmptyString => Some acc
  | String c s' =>
      match digit c with
      | Some d => digits s' (10 * acc + d)%Z
      | None => None
      end
  end.

Definition float_of_digits (s : string) : option float :=
  if ((1 <=? String.length s) && (String.length s <=? 15))%nat then
    option_map (fun z => of_uint63 (Uint63.of_Z z)) (digits s 0)
  else None.

(** Agrees with Python's [float] on an optional minus sign followed by 1 to
    15 decimal digits, whose value a double holds exactly; not meant beyond
    such strings. *)
Definition float_of_decimal (s : string) : option float :=
  match s with
  | String "-" s' => option_map PrimFloat.opp (float_of_digits s')
  | _ => float_of_digits s
  end.

(** [sum] as CPython computed it up to 3.11: from the integer 0, left to
    right. *)
Definition sum_left (l : list float) : float :=
  fold_left PrimFloat.add l 0%float.

Definition quiet : world := mkWorld [] [] None.

End Sample.

(** ** Sample sessions *)

Module SampleSession.

Definition run (lines : list string) : option (result unit * Shell.session) :=
  Shell.main Sample.float_of_decimal Sample.sum_left 5
    (Shell.mkSession lines [] None).

(** The session in its last state, had [main] returned. *)
Definition last (lines : list string) : Shell.session :=
  match run lines with
  | Some (_, s) => s
  | None => Shell.mkSession lines [] None
  end.

(** A category, an expense, then the input ends. *)
Definition cut_short : list string :=
  ["1"; "Food"; "200"; "no"; "3"; "food"; "50"].

Definition cut_short_end : Shell.session := Eval vm_compute in last cut_short.

(** The same, closed by "5". *)
Definition saved : list string := cut_short ++ ["5"].

Definition saved_end : Shell.session := Eval vm_compute in last saved.

(** One category under a name with capitals and blanks, then "5". *)
Definition treats : list string := ["1"; " Dog Treats "; "40"; "no"; "5"].

Definition treats_end : Shell.session := Eval vm_compute in last treats.

End SampleSession.

(** ** Vocabulary of the statements *)

Local Open Scope list_scope.

(** The world once the overage warning and the prompt have been written and
    the answer read. *)
Definition asked_to_proceed (self : BudgetCategory.t) (amount : float)
    (rest : list string) (out : list message) (d : option value) : world :=
  mkWorld rest
    (out ++ [WarnExceeds amount (BudgetCategory.name self); AskProceed]) d.

(** The world once the three questions of the derived-limit mode have been
    asked and answered. *)
Definition asked_for_help (key : string) (rest : list string)
    (out : list message) (d : option value) : world :=
  mkWorld rest (out ++ [AskHelp key; AskIncome; AskPercent key]) d.

(** The derived-limit clause as the specification words it: an income
    [>= 0] and a percentage in [0, 100] store the limit
    [income * percentage / 100]. *)
Definition derived_limit_as_specified (float_of_str : string -> option float) : Prop :=
  forall (self : BudgetManager.t) (name : string) (limit : float)
         (help income_line percent_line : string) (rest : list string)
         (out : list message) (d : option value) (income percentage : float),
    let key := PyStr.lower (PyStr.strip name) in
    key <> "" ->
    Dict.mem key (BudgetManager.categories self) = false ->
    PyStr.lower (PyStr.strip help) = "yes" ->
    float_of_str (PyStr.strip income_line) = Some income ->
    float_of_str (PyStr.strip percent_line) = Some percentage ->
    (0 <=? income)%float = true ->
    (0 <=? percentage)%float = true ->
    (percentage <=? 100)%float = true ->
    fst (BudgetManager.add_category float_of_str self name limit
           (mkWorld (help :: income_line :: percent_line :: rest) out d))
    = Ok (BudgetManager.mk
            (BudgetManager.categories self
             ++ [(key, BudgetCategory.mk key (income * percentage / 100)%float 0)])).

(** The string holds a letter that [str.lower] would change. *)
Fixpoint contains_upper (s : string) : bool :=
  match s with
  | EmptyString => false
  | String c s' => PyStr.isupper c || contains_upper s'
  end.

(** The data model's invariant on a manager: every key is in lowercase. *)
Definition lowercase_keys (self : BudgetManager.t) : Prop :=
  Forall (fun k => contains_upper k = false)
    (Dict.keys (BudgetManager.categories self)).

(** The item of the JSON document written for one category. *)
Definition item_to_json (kv : string * BudgetCategory.t) : string * value :=
  (fst kv, VDict (BudgetCategory.to_dict (snd kv))).

(** The world after the messages [ms] have been written. *)
Definition write (ms : list message) (w : world) : world :=
  mkWorld (stdin w) (stdout w ++ ms) (disk w).

(** What the loop of [show_summary] writes for one category: the warning of
    [remaining] when the budget is exceeded, the row, a rule. *)
Definition summary_lines (c : BudgetCategory.t) : list message :=
  (if gt (BudgetCategory.spent c) (BudgetCategory.limit c)
   then [WarnExceeded (BudgetCategory.name c)] else [])
  ++ [SummaryRow (BudgetCategory.name c) (BudgetCategory.spent c)
        (BudgetCategory.limit c)
        (BudgetCategory.limit c - BudgetCategory.spent c)%float;
      SummaryRule].

(** The data model's other invariant on a manager: every category is stored
    under its own name. *)
Definition names_match_keys (self : BudgetManager.t) : Prop :=
  Forall (fun kv => BudgetCategory.name (snd kv) = fst kv)
    (BudgetManager.categories self).

(** A computation that reads input but leaves the data file alone. *)
Definition reads_only {A} (m : M A) : Prop :=
  forall w r w',
    m w = (r, w') ->
    disk w' = disk w /\ (List.length (stdin w') <= List.length (stdin w))%nat.

(** The item of a loaded document and the entry of the dictionary made from
    it: same key, and the item is an object whose "name", "limit" and
    "spent" are the name, the limit and the spent of the category. *)
Definition loads_as (item : string * value) (entry : string * BudgetCategory.t)
    : Prop :=
  fst entry = fst item
  /\ exists data,
       snd item = VDict data
       /\ Dict.get "name" data = Some (VStr (BudgetCategory.name (snd entry)))
       /\ Dict.get "limit" data = Some (VFloat (BudgetCategory.limit (snd entry)))
       /\ Dict.get "spent" data = Some (VFloat (BudgetCategory.spent (snd entry))).

(** A record whose fields, where present, hold values of the annotated
    types: a string for "name", floats for "limit" and "spent". *)
Definition annotated_record (data : list (string * value)) : Prop :=
  (forall v, Dict.get "name" data = Some v -> exists s, v = VStr s)
  /\ (forall v, Dict.get "limit" data = Some v -> exists f, v = VFloat f)
  /\ (forall v, Dict.get "spent" data = Some v -> exists f, v = VFloat f).

Definition annotated_items (items : list (string * value)) : Prop :=
  Forall (fun item => forall data, snd item = VDict data -> annotated_record data)
    items.

(** A data file that is absent, or whose records are annotated. *)
Definition annotated_file (f : option value) : Prop :=
  match f with
  | Some (VDict items) => annotated_items items
  | _ => True
  end.

(** The manager that [main_loop] holds when it reaches [break]. *)
Fixpoint manager_at_break (float_of_str : string -> option float)
    (fsum : list float -> float) (fuel : nat) (manager : BudgetManager.t)
    (s : Shell.session) : option BudgetManager.t :=
  match fuel with
  | O => None
  | S fuel' =>
      match Shell.iteration float_of_str fsum manager s with
      | (Ok (Some manager'), s') =>
          manager_at_break float_of_str fsum fuel' manager' s'
      | (Ok None, _) => Some manager
      | (Raise _, _) => None
      end
  end.

(** The same for [main]: from the manager that [BudgetManager()] loads. *)
Definition session_manager (float_of_str : string -> option float)
    (fsum : list float -> float) (fuel : nat) (s : Shell.session)
    : option BudgetManager.t :=
  match Shell.sbind (Shell.say Shell.Welcome)
          (fun _ => Shell.call BudgetManager.init) s with
  | (Ok manager, s') => manager_at_break float_of_str fsum fuel manager s'
  | (Raise _, _) => None
  end.

(** What every round of [main] writes before it reads the choice. *)
Definition menu : list Shell.shell_message :=
  [Shell.ChooseOption; Shell.MenuAdd; Shell.MenuRemove; Shell.MenuExpense;
   Shell.MenuSummary; Shell.MenuSave; Shell.AskChoice].

(** A computation that only appends to what has been written: started after
    [out] it does what it does on a blank terminal, with [out] in front. *)
Definition appends_only {A} (m : M A) : Prop :=
  forall ins out d,
    m (mkWorld ins out d)
    = (fst (m (mkWorld ins [] d)),
       mkWorld (stdin (snd (m (mkWorld ins [] d))))
         (out ++ stdout (snd (m (mkWorld ins [] d))))
         (disk (snd (m (mkWorld ins [] d))))).

(** * Properties *)

Local Open Scope list_scope.
Local Open Scope py_scope.

(** ** Floating-point order *)

Lemma SFcompare_swap (x y : spec_float) :
  SFcompare y x = option_map CompOpp (SFcompare x y).
Proof.
  destruct x as [sx|sx| |sx mx ex], y as [sy|sy| |sy my ey]; simpl;
    try reflexivity;
    try (destruct sx; reflexivity); try (destruct sy; reflexivity);
    try (destruct sx, sy; reflexivity).
  assert (Hm : Pos.compare_cont Eq my mx = CompOpp (Pos.compare_cont Eq mx my))
    by (rewrite Pos.compare_cont_antisym; reflexivity).
  destruct sx, sy; simpl; try reflexivity;
    rewrite (Z.compare_antisym ex ey), Hm;
    destruct (ex ?= ey)%Z; simpl; try reflexivity;
    destruct (Pos.compare_cont Eq mx my); reflexivity.
Qed.

(** [x <= y] excludes [x > y], also at infinities (a NaN satisfies neither). *)
Lemma leb_not_gt (x y : float) : (x <=? y)%float = true -> gt x y = false.
Proof.
  unfold gt. rewrite leb_spec, ltb_spec. unfold SFleb, SFltb.
  rewrite (SFcompare_swap (Prim2SF x) (Prim2SF y)).
  destruct (SFcompare (Prim2SF x) (Prim2SF y)) as [[]|]; simpl; congruence.
Qed.

Lemma leb_not_ltb (x y : float) : (x <=? y)%float = true -> (y <? x)%float = false.
Proof. exact (leb_not_gt x y). Qed.

(** ** BudgetCategory *)

Ltac run :=
  cbn [bind ret raise print input emit stdin stdout disk fst snd orb negb].

Lemma app_two {A} (l : list A) (x y : A) : (l ++ [x]) ++ [y] = l ++ [x; y].
Proof. rewrite <- app_assoc. reflexivity. Qed.

(** C3. An expense that keeps [spent + amount <= limit] is added as it is:
    the new [spent] is [spent + amount], nothing is written, no line is read,
    and the outcome does not depend on the world. *)
Theorem add_expense_within_limit (self : BudgetCategory.t) (amount : float) (w : world) :
  (BudgetCategory.spent self + amount <=? BudgetCategory.limit self)%float = true ->
  BudgetCategory.add_expense self amount w
  = (Ok (BudgetCategory.set_spent self (BudgetCategory.spent self + amount)%float), w).
Proof.
  intros Hle. unfold BudgetCategory.add_expense.
  rewrite (leb_not_gt _ _ Hle). reflexivity.
Qed.

Lemma add_expense_within_limit_witness :
  BudgetCategory.add_expense (BudgetCategory.mk "food" 200 0) 50 Sample.quiet
  = (Ok (BudgetCategory.mk "food" 200 50), Sample.quiet).
Proof.
  exact (add_expense_within_limit (BudgetCategory.mk "food" 200 0) 50
           Sample.quiet eq_refl).
Defined.

(** C4. An expense with [spent + amount > limit] writes the warning and the
    prompt, whatever the input holds; on the answer "no" [spent] is unchanged
    and "Expense not added" is written; on the answer "yes" the new [spent]
    is [spent + amount]. *)
Theorem add_expense_overage (self : BudgetCategory.t) (amount : float) :
  gt (BudgetCategory.spent self + amount)%float (BudgetCategory.limit self) = true ->
  (forall w, exists tail,
      stdout (snd (BudgetCategory.add_expense self amount w))
      = stdout w ++ [WarnExceeds amount (BudgetCategory.name self); AskProceed] ++ tail)
  /\ (forall answer rest out d,
        PyStr.lower (PyStr.strip answer) = "no" ->
        BudgetCategory.add_expense self amount (mkWorld (answer :: rest) out d)
        = (Ok self, emit ExpenseNotAdded (asked_to_proceed self amount rest out d)))
  /\ (forall answer rest out d,
        PyStr.lower (PyStr.strip answer) = "yes" ->
        BudgetCategory.add_expense self amount (mkWorld (answer :: rest) out d)
        = (Ok (BudgetCategory.set_spent self (BudgetCategory.spent self + amount)%float),
           asked_to_proceed self amount rest out d)).
Proof.
  intros Hgt. unfold BudgetCategory.add_expense, asked_to_proceed. rewrite Hgt.
  split; [|split].
  - intros [[|answer rest] out d]; run.
    + exists []. rewrite app_two. reflexivity.
    + destruct (String.eqb (PyStr.lower (PyStr.strip answer)) "yes");
        [|destruct (String.eqb (PyStr.lower (PyStr.strip answer)) "no")];
        run; rewrite ?app_two.
      * exists []. reflexivity.
      * exists [ExpenseNotAdded]. rewrite <- app_assoc. reflexivity.
      * exists []. reflexivity.
  - intros answer rest out d Hno. run. rewrite Hno. run.
    rewrite app_two. reflexivity.
  - intros answer rest out d Hyes. run. rewrite Hyes. run.
    rewrite app_two. reflexivity.
Qed.

Lemma add_expense_overage_witness :
  let food := BudgetCategory.mk "food" 100 0 in
  BudgetCategory.add_expense food 150 (mkWorld [" No "] [] None)
  = (Ok food, mkWorld [] [WarnExceeds 150 "food"; AskProceed; ExpenseNotAdded] None)
  /\ BudgetCategory.add_expense food 150 (mkWorld ["YES"] [] None)
     = (Ok (BudgetCategory.mk "food" 100 150),
        mkWorld [] [WarnExceeds 150 "food"; AskProceed] None).
Proof.
  pose proof (add_expense_overage (BudgetCategory.mk "food" 100 0) 150 eq_refl)
    as [_ [Hno Hyes]].
  split.
  - exact (Hno " No " [] [] None eq_refl).
  - exact (Hyes "YES" [] [] None eq_refl).
Defined.

(** C9. On an overage, an answer that is neither "yes" nor "no" (after
    trimming and lowercasing, as the code compares it) commits nothing:
    [self] comes back with [spent] as it was. *)
Theorem add_expense_other_answer (self : BudgetCategory.t) (amount : float)
    (answer : string) (rest : list string) (out : list message) (d : option value) :
  gt (BudgetCategory.spent self + amount)%float (BudgetCategory.limit self) = true ->
  PyStr.lower (PyStr.strip answer) <> "yes" ->
  PyStr.lower (PyStr.strip answer) <> "no" ->
  BudgetCategory.add_expense self amount (mkWorld (answer :: rest) out d)
  = (Ok self, asked_to_proceed self amount rest out d).
Proof.
  intros Hgt Hyes Hno. unfold BudgetCategory.add_expense, asked_to_proceed.
  rewrite Hgt. run.
  apply String.eqb_neq in Hyes, Hno. rewrite Hyes, Hno. run.
  rewrite app_two. reflexivity.
Qed.

Lemma add_expense_other_answer_witness :
  let food := BudgetCategory.mk "food" 100 0 in
  BudgetCategory.add_expense food 150 (mkWorld ["maybe"; "4"] [] None)
  = (Ok food, mkWorld ["4"] [WarnExceeds 150 "food"; AskProceed] None).
Proof.
  refine (add_expense_other_answer (BudgetCategory.mk "food" 100 0) 150
            "maybe" ["4"] [] None eq_refl _ _); discriminate.
Defined.

Lemma from_dict_inverts_to_dict (c : BudgetCategory.t) :
  BudgetCategory.from_dict (BudgetCategory.to_dict c) = Ok c.
Proof. destruct c as [n l s]. reflexivity. Qed.

(** C5. [from_dict (to_dict C)] is a category with the name, the limit and
    the spent of [C], for every category [C]. *)
Theorem from_dict_to_dict (c : BudgetCategory.t) :
  exists c',
    BudgetCategory.from_dict (BudgetCategory.to_dict c) = Ok c'
    /\ BudgetCategory.name c' = BudgetCategory.name c
    /\ BudgetCategory.limit c' = BudgetCategory.limit c
    /\ BudgetCategory.spent c' = BudgetCategory.spent c.
Proof.
  exists c. rewrite from_dict_inverts_to_dict. repeat split.
Qed.

(** C6. A record that lacks one of "name", "limit", "spent" makes
    [from_dict] raise [KeyError] on a missing field; no category is made. *)
Theorem from_dict_missing_field (data : list (string * value)) :
  Dict.get "name" data = None \/ Dict.get "limit" data = None
  \/ Dict.get "spent" data = None ->
  exists key,
    BudgetCategory.from_dict data = Raise (KeyError key)
    /\ In key ["name"; "limit"; "spent"]
    /\ Dict.get key data = None.
Proof.
  intros H. unfold BudgetCategory.from_dict, BudgetCategory.subscript.
  destruct (Dict.get "name" data) as [n|] eqn:Hn.
  2:{ exists "name". repeat split; simpl; tauto. }
  destruct (Dict.get "limit" data) as [l|] eqn:Hl.
  2:{ exists "limit". repeat split; simpl; tauto. }
  destruct (Dict.get "spent" data) as [s|] eqn:Hs.
  2:{ exists "spent". repeat split; simpl; tauto. }
  destruct H as [H|[H|H]]; discriminate.
Qed.

Lemma from_dict_missing_field_witness :
  exists key,
    BudgetCategory.from_dict [("name", VStr "food"); ("limit", VFloat 100)]
    = Raise (KeyError key)
    /\ In key ["name"; "limit"; "spent"]
    /\ Dict.get key [("name", VStr "food"); ("limit", VFloat 100)] = None.
Proof.
  apply (from_dict_missing_field [("name", VStr "food"); ("limit", VFloat 100)]).
  right. right. reflexivity.
Defined.

(** ** Dictionaries *)

Lemma get_none_iff {V} (k : string) (d : list (string * V)) :
  Dict.get k d = None <-> ~ In k (Dict.keys d).
Proof.
  induction d as [|[k' v] d IH]; simpl.
  - tauto.
  - destruct (String.eqb_spec k k') as [->|Hne].
    + split; [discriminate | intros H; exfalso; apply H; now left].
    + rewrite IH. split; [intros H [E|I]; [congruence|tauto] | tauto].
Qed.

Lemma mem_false_iff {V} (k : string) (d : list (string * V)) :
  Dict.mem k d = false <-> Dict.get k d = None.
Proof. unfold Dict.mem. destruct (Dict.get k d); split; congruence. Qed.

(** Assigning to a key that is absent appends the item. *)
Lemma set_absent {V} (k : string) (v : V) (d : list (string * V)) :
  Dict.get k d = None -> Dict.set k v d = d ++ [(k, v)].
Proof.
  induction d as [|[k' v'] d IH]; simpl; [reflexivity|].
  destruct (String.eqb k k'); [discriminate|].
  intros H. rewrite (IH H). reflexivity.
Qed.

(** Assigning to a key that is present keeps the keys and their order. *)
Lemma keys_set_present {V} (k : string) (v : V) (d : list (string * V)) :
  Dict.mem k d = true -> Dict.keys (Dict.set k v d) = Dict.keys d.
Proof.
  unfold Dict.mem. induction d as [|[k' v'] d IH]; simpl; [discriminate|].
  destruct (String.eqb k k'); [reflexivity|].
  intros H. unfold Dict.keys in *. simpl. f_equal. exact (IH H).
Qed.

Lemma keys_del_incl {V} (k : string) (d : list (string * V)) :
  incl (Dict.keys (Dict.del k d)) (Dict.keys d).
Proof.
  induction d as [|[k' v'] d IH]; simpl; [apply incl_refl|].
  destruct (String.eqb k k'); simpl.
  - apply incl_tl, incl_refl.
  - apply incl_cons; [now left | apply incl_tl, IH].
Qed.

Lemma get_set_same {V} (k : string) (v : V) (d : list (string * V)) :
  Dict.get k (Dict.set k v d) = Some v.
Proof.
  induction d as [|[k' v'] d IH]; simpl.
  - rewrite String.eqb_refl. reflexivity.
  - destruct (String.eqb k k') eqn:E; simpl; rewrite E; [reflexivity | exact IH].
Qed.

(** ** BudgetManager.add_category *)

Section AddCategory.

Variable float_of_str : string -> option float.

(** C7. When the trimmed, lowercased name is empty or already a key,
    [add_category] writes "Category ... already exists", reads nothing and
    returns the manager with its categories as they were. *)
Theorem add_category_duplicate (self : BudgetManager.t) (name : string)
    (limit : float) (w : world) :
  PyStr.lower (PyStr.strip name) = ""
  \/ Dict.mem (PyStr.lower (PyStr.strip name)) (BudgetManager.categories self) = true ->
  BudgetManager.add_category float_of_str self name limit w
  = (Ok self, emit (CategoryExists (PyStr.lower (PyStr.strip name))) w).
Proof.
  intros H. unfold BudgetManager.add_category.
  assert (Hc : Dict.mem (PyStr.lower (PyStr.strip name)) (BudgetManager.categories self)
               || String.eqb (PyStr.lower (PyStr.strip name)) "" = true).
  { destruct H as [H|H]; rewrite H; [apply orb_true_r | reflexivity]. }
  rewrite Hc. reflexivity.
Qed.

Lemma app_three {A} (l : list A) (x y z : A) :
  ((l ++ [x]) ++ [y]) ++ [z] = l ++ [x; y; z].
Proof. rewrite <- !app_assoc. reflexivity. Qed.

(** C8, as the code has it.  For a new, non-empty key and the answer "yes"
    to the offer of help: an income [>= 0] and a percentage in [0, 100]
    store a category whose limit is [income * (percentage / 100)], the
    quotient rounded first; a percentage [< 0] or [> 100], or an income
    [< 0], writes an invalid-input message and returns the manager
    unchanged. *)
Theorem add_category_derived (self : BudgetManager.t) (name : string)
    (limit : float) (help income_line percent_line : string)
    (rest : list string) (out : list message) (d : option value) :
  let key := PyStr.lower (PyStr.strip name) in
  let w := mkWorld (help :: income_line :: percent_line :: rest) out d in
  key <> "" ->
  Dict.mem key (BudgetManager.categories self) = false ->
  PyStr.lower (PyStr.strip help) = "yes" ->
  (forall income percentage,
      float_of_str (PyStr.strip income_line) = Some income ->
      float_of_str (PyStr.strip percent_line) = Some percentage ->
      (0 <=? income)%float = true ->
      (0 <=? percentage)%float = true ->
      (percentage <=? 100)%float = true ->
      let derived := (income * (percentage / 100))%float in
      BudgetManager.add_category float_of_str self name limit w
      = (Ok (BudgetManager.mk
               (BudgetManager.categories self
                ++ [(key, BudgetCategory.mk key derived 0)])),
         emit (AddedCategory key derived) (asked_for_help key rest out d)))
  /\ (forall percentage,
        float_of_str (PyStr.strip percent_line) = Some percentage ->
        (percentage <? 0)%float = true \/ gt percentage 100 = true ->
        BudgetManager.add_category float_of_str self name limit w
        = (Ok self, emit InvalidPercentage (asked_for_help key rest out d)))
  /\ (forall income,
        float_of_str (PyStr.strip income_line) = Some income ->
        (income <? 0)%float = true ->
        exists m,
          (m = InvalidPercentage \/ m = InvalidIncome)
          /\ BudgetManager.add_category float_of_str self name limit w
             = (Ok self, emit m (asked_for_help key rest out d))).
Proof.
  intros key w Hkey Hnew Hhelp. subst w.
  apply String.eqb_neq in Hkey.
  assert (Hstart :
    BudgetManager.add_category float_of_str self name limit
      (mkWorld (help :: income_line :: percent_line :: rest) out d)
    = match float_of_str (PyStr.strip percent_line) with
      | None => (Ok self, emit InvalidPercentage (asked_for_help key rest out d))
      | Some percentage =>
          if (percentage <? 0)%float || gt percentage 100 then
            (Ok self, emit InvalidPercentage (asked_for_help key rest out d))
          else
            match float_of_str (PyStr.strip income_line) with
            | None => (Ok self, emit InvalidIncome (asked_for_help key rest out d))
            | Some income =>
                if (income <? 0)%float then
                  (Ok self, emit InvalidIncome (asked_for_help key rest out d))
                else
                  (Ok (BudgetManager.mk
                         (Dict.set key
                            (BudgetCategory.init key (income * (percentage / 100))%float)
                            (BudgetManager.categories self))),
                   emit (AddedCategory key (income * (percentage / 100))%float)
                     (asked_for_help key rest out d))
            end
      end).
  { unfold BudgetManager.add_category, asked_for_help. fold key.
    rewrite Hnew, Hkey. run. rewrite Hhelp, String.eqb_refl. run.
    rewrite !app_three.
    destruct (float_of_str (PyStr.strip percent_line)) as [percentage|];
      [|reflexivity].
    destruct ((percentage <? 0)%float || gt percentage 100); [reflexivity|].
    destruct (float_of_str (PyStr.strip income_line)) as [income|];
      [|reflexivity].
    destruct (income <? 0)%float; reflexivity. }
  split; [|split].
  - intros income percentage Hi Hp Hi0 Hp0 Hp100 derived. rewrite Hstart, Hp, Hi.
    rewrite (leb_not_ltb _ _ Hp0), (leb_not_gt _ _ Hp100), (leb_not_ltb _ _ Hi0).
    simpl orb. cbv iota.
    rewrite set_absent by (apply mem_false_iff; exact Hnew).
    reflexivity.
  - intros percentage Hp Hout. rewrite Hstart, Hp.
    assert (Hc : (percentage <? 0)%float || gt percentage 100 = true)
      by (destruct Hout as [H|H]; rewrite H; [reflexivity | apply orb_true_r]).
    rewrite Hc. reflexivity.
  - intros income Hi Hneg. rewrite Hstart.
    destruct (float_of_str (PyStr.strip percent_line)) as [percentage|].
    2:{ exists InvalidPercentage. split; [now left | reflexivity]. }
    destruct ((percentage <? 0)%float || gt percentage 100).
    { exists InvalidPercentage. split; [now left | reflexivity]. }
    rewrite Hi, Hneg. exists InvalidIncome. split; [now right | reflexivity].
Qed.

End AddCategory.

Lemma add_category_duplicate_witness :
  let self := BudgetManager.mk [("food", BudgetCategory.mk "food" 200 0)] in
  BudgetManager.add_category Sample.float_of_decimal self " Food " 300 Sample.quiet
  = (Ok self, mkWorld [] [CategoryExists "food"] None).
Proof.
  exact (add_category_duplicate Sample.float_of_decimal
           (BudgetManager.mk [("food", BudgetCategory.mk "food" 200 0)])
           " Food " 300 Sample.quiet (or_intror eq_refl)).
Defined.

Lemma add_category_derived_witness :
  let run_with income percent :=
    BudgetManager.add_category Sample.float_of_decimal (BudgetManager.mk [])
      " Rent" 0 (mkWorld ["yes"; income; percent] [] None) in
  let asked := [AskHelp "rent"; AskIncome; AskPercent "rent"] in
  run_with "3000" "25"
  = (Ok (BudgetManager.mk [("rent", BudgetCategory.mk "rent" 750 0)]),
     mkWorld [] (asked ++ [AddedCategory "rent" 750]) None)
  /\ run_with "3000" "150"
     = (Ok (BudgetManager.mk []), mkWorld [] (asked ++ [InvalidPercentage]) None)
  /\ exists m,
       (m = InvalidPercentage \/ m = InvalidIncome)
       /\ run_with "-5" "25"
          = (Ok (BudgetManager.mk []), mkWorld [] (asked ++ [m]) None).
Proof.
  assert (Hkey : PyStr.lower (PyStr.strip " Rent") <> "") by discriminate.
  split; [|split].
  - exact (proj1 (add_category_derived Sample.float_of_decimal
                    (BudgetManager.mk []) " Rent" 0 "yes" "3000" "25" [] [] None
                    Hkey eq_refl eq_refl)
             3000%float 25%float eq_refl eq_refl eq_refl eq_refl eq_refl).
  - exact (proj1 (proj2 (add_category_derived Sample.float_of_decimal
                    (BudgetManager.mk []) " Rent" 0 "yes" "3000" "150" [] [] None
                    Hkey eq_refl eq_refl))
             150%float eq_refl (or_intror eq_refl)).
  - exact (proj2 (proj2 (add_category_derived Sample.float_of_decimal
                    (BudgetManager.mk []) " Rent" 0 "yes" "-5" "25" [] [] None
                    Hkey eq_refl eq_refl))
             (-5)%float eq_refl eq_refl).
Defined.

(** An income of 3 with a percentage of 10 stores the limit
    [3 * (10 / 100) = 0.30000000000000004], while [3 * 10 / 100] is the
    double nearest to 0.3. *)
Lemma derived_limit_as_specified_fails :
  ~ derived_limit_as_specified Sample.float_of_decimal.
Proof.
  intros H.
  specialize (H (BudgetManager.mk []) "rent" 0%float "yes" "3" "10" [] [] None
                3%float 10%float).
  cbv zeta in H.
  assert (Hkey : PyStr.lower (PyStr.strip "rent") <> "") by discriminate.
  specialize (H Hkey eq_refl eq_refl eq_refl eq_refl eq_refl eq_refl eq_refl).
  vm_compute in H.
  apply (f_equal (fun r =>
           match r with
           | Ok {| BudgetManager.categories := [(_, c)] |} =>
               PrimFloat.eqb (BudgetCategory.limit c) (3 * (10 / 100))%float
           | _ => false
           end)) in H.
  vm_compute in H. discriminate H.
Qed.

(** ** Lookups by the spelling the caller gives *)

Lemma lower_char_not_upper (c : ascii) : PyStr.isupper (PyStr.lower_char c) = false.
Proof.
  destruct c as [b0 b1 b2 b3 b4 b5 b6 b7].
  destruct b0, b1, b2, b3, b4, b5, b6, b7; vm_compute; reflexivity.
Qed.

Lemma lower_no_upper (s : string) : contains_upper (PyStr.lower s) = false.
Proof.
  induction s as [|c s IH]; simpl; [reflexivity|].
  rewrite lower_char_not_upper, IH. reflexivity.
Qed.

Lemma upper_not_key (self : BudgetManager.t) (name : string) :
  contains_upper name = true -> lowercase_keys self ->
  Dict.get name (BudgetManager.categories self) = None.
Proof.
  intros Hup Hkeys. apply get_none_iff. intros Hin.
  unfold lowercase_keys in Hkeys. rewrite Forall_forall in Hkeys.
  specialize (Hkeys name Hin). congruence.
Qed.

Ltac branches :=
  repeat (cbv beta iota zeta delta
            [bind ret raise print input emit stdin stdout disk fst snd orb negb];
          match goal with
          | |- context [match ?x with _ => _ end] => destruct x eqn:?
          end).

Section Lookups.

Variable float_of_str : string -> option float.

(** What a call of [add_category] that returns can have done: nothing, or
    one new item under the normalised name, placed last. *)
Lemma add_category_returns (self self' : BudgetManager.t) (name : string)
    (limit : float) (w w' : world) :
  BudgetManager.add_category float_of_str self name limit w = (Ok self', w') ->
  self' = self
  \/ exists lim,
       BudgetManager.categories self'
       = BudgetManager.categories self
         ++ [(PyStr.lower (PyStr.strip name),
              BudgetCategory.init (PyStr.lower (PyStr.strip name)) lim)].
Proof.
  unfold BudgetManager.add_category.
  destruct (Dict.mem (PyStr.lower (PyStr.strip name)) (BudgetManager.categories self))
    eqn:Hmem; simpl orb; cbv iota.
  { run. intros H; inversion H. now left. }
  destruct w as [ins out d].
  branches; intros H; inversion H; subst; try discriminate; try (now left);
    right; eexists; simpl;
    (rewrite set_absent by (apply mem_false_iff; exact Hmem)); reflexivity.
Qed.

Lemma lowercase_keys_add_category (self self' : BudgetManager.t) (name : string)
    (limit : float) (w w' : world) :
  lowercase_keys self ->
  BudgetManager.add_category float_of_str self name limit w = (Ok self', w') ->
  lowercase_keys self'.
Proof.
  intros Hkeys Hrun.
  destruct (add_category_returns _ _ _ _ _ _ Hrun) as [->|[lim Hnew]];
    [exact Hkeys|].
  unfold lowercase_keys, Dict.keys in *. rewrite Hnew, map_app.
  apply Forall_app. split; [exact Hkeys|].
  constructor; [apply lower_no_upper | constructor].
Qed.

(** C10, as the code has it.  In a manager whose keys are all in lowercase,
    and for a name that holds an uppercase letter: [add_category] creates
    the category, in either mode, under the trimmed, lowercased name and
    under no other key, and keeps the keys in lowercase; after any call of
    it that returns, and in any later manager whose keys are in lowercase,
    [add_expense] and [remove_category] with the spelling that was given
    write "No such category", read nothing and change nothing. *)
Theorem original_spelling_not_found (self : BudgetManager.t) (name : string) :
  let key := PyStr.lower (PyStr.strip name) in
  contains_upper name = true ->
  lowercase_keys self ->
  (forall limit w self' w',
      BudgetManager.add_category float_of_str self name limit w = (Ok self', w') ->
      (self' = self
       \/ exists lim,
            BudgetManager.categories self'
            = BudgetManager.categories self ++ [(key, BudgetCategory.mk key lim 0)])
      /\ lowercase_keys self'
      /\ (forall amount w2,
            BudgetManager.add_expense self' name amount w2
            = (Ok self', emit (NoSuchCategory name) w2))
      /\ (forall w2,
            BudgetManager.remove_category self' name w2
            = (Ok self', emit (NoSuchCategory name) w2)))
  /\ (forall later amount w2,
        lowercase_keys later ->
        BudgetManager.add_expense later name amount w2
        = (Ok later, emit (NoSuchCategory name) w2)
        /\ BudgetManager.remove_category later name w2
           = (Ok later, emit (NoSuchCategory name) w2))
  /\ (key <> "" ->
      Dict.mem key (BudgetManager.categories self) = false ->
      (forall limit answer rest out d,
          PyStr.lower (PyStr.strip answer) <> "yes" ->
          (0 <=? limit)%float = true ->
          BudgetManager.add_category float_of_str self name limit
            (mkWorld (answer :: rest) out d)
          = (Ok (BudgetManager.mk
                   (BudgetManager.categories self
                    ++ [(key, BudgetCategory.mk key limit 0)])),
             mkWorld rest (out ++ [AskHelp key; AddedCategory key limit]) d))
      /\ (forall limit help income_line percent_line rest out d income percentage,
            PyStr.lower (PyStr.strip help) = "yes" ->
            float_of_str (PyStr.strip income_line) = Some income ->
            float_of_str (PyStr.strip percent_line) = Some percentage ->
            (0 <=? income)%float = true ->
            (0 <=? percentage)%float = true ->
            (percentage <=? 100)%float = true ->
            BudgetManager.add_category float_of_str self name limit
              (mkWorld (help :: income_line :: percent_line :: rest) out d)
            = (Ok (BudgetManager.mk
                     (BudgetManager.categories self
                      ++ [(key,
                           BudgetCategory.mk key
                             (income * (percentage / 100))%float 0)])),
               emit (AddedCategory key (income * (percentage / 100))%float)
                 (asked_for_help key rest out d)))).
Proof.
  intros key Hup Hkeys.
  assert (Hlost : forall later amount w2,
            lowercase_keys later ->
            BudgetManager.add_expense later name amount w2
            = (Ok later, emit (NoSuchCategory name) w2)
            /\ BudgetManager.remove_category later name w2
               = (Ok later, emit (NoSuchCategory name) w2)).
  { intros later amount w2 Hlater.
    pose proof (upper_not_key _ _ Hup Hlater) as Hget.
    unfold BudgetManager.add_expense, BudgetManager.remove_category, Dict.mem.
    rewrite Hget. split; reflexivity. }
  split; [|split; [exact Hlost|]].
  - intros limit w self' w' Hrun.
    pose proof (lowercase_keys_add_category _ _ _ _ _ _ Hkeys Hrun) as Hkeys'.
    split; [exact (add_category_returns _ _ _ _ _ _ Hrun)|].
    split; [exact Hkeys'|].
    split.
    + intros amount w2. exact (proj1 (Hlost self' amount w2 Hkeys')).
    + intros w2. exact (proj2 (Hlost self' 0%float w2 Hkeys')).
  - intros Hkey Hnew. apply String.eqb_neq in Hkey.
    pose proof Hnew as Hnone. apply mem_false_iff in Hnone.
    split.
    + intros limit answer rest out d Hno Hl. apply String.eqb_neq in Hno.
      unfold BudgetManager.add_category. fold key. rewrite Hnew, Hkey.
      cbv beta iota zeta delta
        [bind ret print input emit stdin stdout disk orb].
      rewrite Hno, (leb_not_ltb _ _ Hl), (set_absent _ _ _ Hnone), app_two.
      reflexivity.
    + intros limit help income_line percent_line rest out d income percentage
        Hhelp Hi Hp Hi0 Hp0 Hp100.
      unfold BudgetManager.add_category, asked_for_help. fold key.
      rewrite Hnew, Hkey.
      cbv beta iota zeta delta
        [bind ret print input emit stdin stdout disk orb].
      rewrite Hhelp, String.eqb_refl, Hp, Hi.
      rewrite (leb_not_ltb _ _ Hp0), (leb_not_gt _ _ Hp100), (leb_not_ltb _ _ Hi0).
      cbv beta iota zeta delta [orb].
      rewrite (set_absent _ _ _ Hnone), <- !app_assoc. reflexivity.
Qed.

(** The invariant is kept by the other two operations that change the
    dictionary. *)
Lemma lowercase_keys_add_expense (self self' : BudgetManager.t) (name : string)
    (amount : float) (w w' : world) :
  lowercase_keys self ->
  BudgetManager.add_expense self name amount w = (Ok self', w') ->
  lowercase_keys self'.
Proof.
  unfold BudgetManager.add_expense, lowercase_keys. intros Hkeys.
  destruct (Dict.get name (BudgetManager.categories self)) as [c|] eqn:Hget.
  - unfold bind at 1.
    destruct (BudgetCategory.add_expense c amount w) as [[c'|e] w1];
      run; intros H; inversion H; subst; simpl.
    rewrite keys_set_present; [exact Hkeys|].
    unfold Dict.mem. rewrite Hget. reflexivity.
  - run. intros H; inversion H; subst. exact Hkeys.
Qed.

Lemma lowercase_keys_remove_category (self self' : BudgetManager.t) (name : string)
    (w w' : world) :
  lowercase_keys self ->
  BudgetManager.remove_category self name w = (Ok self', w') ->
  lowercase_keys self'.
Proof.
  unfold BudgetManager.remove_category, lowercase_keys. intros Hkeys.
  destruct w as [ins out d].
  branches; intros H; inversion H; subst; try exact Hkeys.
  simpl. rewrite Forall_forall in *. intros k Hk.
  apply Hkeys. exact (keys_del_incl _ _ _ Hk).
Qed.

End Lookups.

Lemma lowercase_keys_empty : lowercase_keys (BudgetManager.mk []).
Proof. constructor. Qed.

Lemma original_spelling_not_found_witness :
  let created := BudgetManager.mk [("food", BudgetCategory.mk "food" 200 0)] in
  BudgetManager.add_category Sample.float_of_decimal (BudgetManager.mk []) "Food"
    200 (mkWorld ["no"] [] None)
  = (Ok created, mkWorld [] [AskHelp "food"; AddedCategory "food" 200] None)
  /\ BudgetManager.add_expense created "Food" 50 Sample.quiet
     = (Ok created, mkWorld [] [NoSuchCategory "Food"] None)
  /\ BudgetManager.remove_category created "Food" Sample.quiet
     = (Ok created, mkWorld [] [NoSuchCategory "Food"] None).
Proof.
  pose proof (original_spelling_not_found Sample.float_of_decimal
                (BudgetManager.mk []) "Food" eq_refl lowercase_keys_empty)
    as [Hafter [_ Hcreates]].
  assert (Hkey : PyStr.lower (PyStr.strip "Food") <> "") by discriminate.
  assert (Hno : PyStr.lower (PyStr.strip "no") <> "yes") by discriminate.
  pose proof (proj1 (Hcreates Hkey eq_refl) 200%float "no" [] [] None Hno eq_refl)
    as Hrun.
  destruct (Hafter 200%float _ _ _ Hrun) as [_ [_ [Hexp Hrem]]].
  split; [exact Hrun|]. split.
  - exact (Hexp 50%float Sample.quiet).
  - exact (Hrem Sample.quiet).
Defined.

(** The claim without the condition on the keys fails on a manager loaded
    from a file that holds the key "Food": [load_data] keeps the keys of
    the file as they are, [add_category] then creates "food" beside it, and
    the original spelling finds the loaded category. *)
Lemma original_spelling_found_after_load :
  let file :=
    Some (VDict [("Food", VDict [("name", VStr "Food"); ("limit", VFloat 100);
                                 ("spent", VFloat 0)])]) in
  let loaded := BudgetManager.mk [("Food", BudgetCategory.mk "Food" 100 0)] in
  let created :=
    BudgetManager.mk [("Food", BudgetCategory.mk "Food" 100 0);
                      ("food", BudgetCategory.mk "food" 200 0)] in
  let w1 := mkWorld ["no"] [] file in
  let w2 := mkWorld [] [AskHelp "food"; AddedCategory "food" 200] file in
  contains_upper "Food" = true
  /\ BudgetManager.init w1 = (Ok loaded, w1)
  /\ BudgetManager.add_category Sample.float_of_decimal loaded "Food" 200 w1
     = (Ok created, w2)
  /\ BudgetManager.add_expense created "Food" 50 w2
     = (Ok (BudgetManager.mk [("Food", BudgetCategory.mk "Food" 100 50);
                              ("food", BudgetCategory.mk "food" 200 0)]),
        emit (AddedExpense 50 "Food") w2)
  /\ BudgetManager.add_expense created "Food" 50 w2
     <> (Ok created, emit (NoSuchCategory "Food") w2)
  /\ BudgetManager.remove_category created "Food" (mkWorld ["yes"] [] file)
     <> (Ok created, emit (NoSuchCategory "Food") (mkWorld ["yes"] [] file)).
Proof.
  repeat split; try reflexivity.
  - intros H. apply (f_equal (fun p => stdout (snd p))) in H.
    vm_compute in H. discriminate H.
  - intros H. apply (f_equal (fun p => stdout (snd p))) in H.
    vm_compute in H. discriminate H.
Qed.

(** ** Saving and loading *)

Lemma keys_app {V} (d1 d2 : list (string * V)) :
  Dict.keys (d1 ++ d2) = Dict.keys d1 ++ Dict.keys d2.
Proof. apply map_app. Qed.

Lemma nodup_snoc (l1 l2 : list string) (k : string) :
  NoDup (l1 ++ k :: l2) -> NoDup ((l1 ++ [k]) ++ l2).
Proof. rewrite <- app_assoc. exact (fun H => H). Qed.

(** With no key twice, the comprehension of [save_data] writes one item per
    category, in order. *)
Lemma dump_fold (items : list (string * BudgetCategory.t)) :
  forall acc : list (string * value),
    NoDup (Dict.keys acc ++ Dict.keys items) ->
    fold_left
      (fun acc kv =>
         Dict.set (fst kv) (VDict (BudgetCategory.to_dict (snd kv))) acc)
      items acc
    = acc ++ map item_to_json items.
Proof.
  induction items as [|[k c] items IH]; intros acc Hnd; simpl.
  - rewrite app_nil_r. reflexivity.
  - simpl in Hnd. rewrite set_absent.
    + rewrite IH.
      * rewrite <- app_assoc. reflexivity.
      * rewrite keys_app. apply nodup_snoc. exact Hnd.
    + apply get_none_iff. intros Hin.
      apply (NoDup_remove_2 _ _ _ Hnd). apply in_or_app. now left.
Qed.

(** And the comprehension of [load_data] reads them back. *)
Lemma load_items_written (items : list (string * BudgetCategory.t)) :
  forall acc : list (string * BudgetCategory.t),
    NoDup (Dict.keys acc ++ Dict.keys items) ->
    BudgetManager.load_items (map item_to_json items) acc = Ok (acc ++ items).
Proof.
  induction items as [|[k c] items IH]; intros acc Hnd;
    cbn [map item_to_json BudgetManager.load_items fst snd].
  - rewrite app_nil_r. reflexivity.
  - simpl in Hnd. rewrite from_dict_inverts_to_dict, set_absent.
    + rewrite IH.
      * rewrite <- app_assoc. reflexivity.
      * rewrite keys_app. apply nodup_snoc. exact Hnd.
    + apply get_none_iff. intros Hin.
      apply (NoDup_remove_2 _ _ _ Hnd). apply in_or_app. now left.
Qed.

(** C1. [save_data] succeeds, and a manager constructed afterwards (which
    loads the file) holds the same categories: the same keys in the same
    order, each with the same name, limit and spent. *)
Theorem save_then_load (self : BudgetManager.t) (w : world) :
  Dict.is_dict (BudgetManager.categories self) ->
  exists w1,
    BudgetManager.save_data self w = (Ok tt, w1)
    /\ BudgetManager.init w1 = (Ok self, w1).
Proof.
  intros Hd. destruct self as [cats]. simpl in Hd.
  eexists. split; [reflexivity|].
  unfold BudgetManager.init, BudgetManager.load_data, BudgetManager.dump_items.
  simpl disk. rewrite dump_fold by exact Hd. simpl app.
  rewrite load_items_written by exact Hd. reflexivity.
Qed.

Lemma save_then_load_witness :
  let self :=
    BudgetManager.mk [("food", BudgetCategory.mk "food" 200 50);
                      ("rent", BudgetCategory.mk "rent" 900 nan)] in
  exists w1,
    BudgetManager.save_data self Sample.quiet = (Ok tt, w1)
    /\ BudgetManager.init w1 = (Ok self, w1).
Proof.
  apply (save_then_load
           (BudgetManager.mk [("food", BudgetCategory.mk "food" 200 50);
                              ("rent", BudgetCategory.mk "rent" 900 nan)])
           Sample.quiet).
  repeat constructor; simpl; intuition discriminate.
Defined.

(** ** The summary *)

Section Summary.

Variable fsum : list float -> float.

Lemma summary_loop_runs (self : BudgetManager.t) (todo : list BudgetCategory.t) :
  forall (total_spent : option float) (w : world),
    BudgetManager.summary_loop fsum self todo total_spent w
    = (Ok match todo with
          | [] => total_spent
          | _ :: _ =>
              Some (fsum (map BudgetCategory.spent
                            (Dict.values (BudgetManager.categories self))))
          end,
       write (flat_map summary_lines todo) w).
Proof.
  induction todo as [|c todo IH]; intros total_spent w.
  - unfold write. simpl. rewrite app_nil_r. destruct w; reflexivity.
  - cbn [BudgetManager.summary_loop flat_map].
    unfold bind at 1. unfold BudgetCategory.remaining, summary_lines.
    destruct (gt (BudgetCategory.spent c) (BudgetCategory.limit c)); run;
      rewrite IH; (f_equal; [destruct todo; reflexivity|]);
      unfold write, emit; simpl; rewrite <- ?app_assoc; reflexivity.
Qed.

(** C2, the empty case.  With no categories the loop body never runs,
    [total_spent] is never assigned, and the last [print] raises
    [UnboundLocalError] after the three header lines. *)
Theorem show_summary_empty (w : world) :
  BudgetManager.show_summary fsum (BudgetManager.mk []) w
  = (Raise (UnboundLocalError "total_spent"),
     write [SummaryBanner; SummaryColumns; SummaryRule] w).
Proof.
  destruct w as [ins out d].
  unfold BudgetManager.show_summary, write. cbn. unfold raise, emit. cbn.
  rewrite app_three. reflexivity.
Qed.

(** With at least one category the summary succeeds: per category in
    insertion order its lines, then the total [sum] of [spent]. *)
Lemma show_summary_nonempty (self : BudgetManager.t) (w : world) :
  BudgetManager.categories self <> [] ->
  BudgetManager.show_summary fsum self w
  = (Ok tt,
     write ([SummaryBanner; SummaryColumns; SummaryRule]
            ++ flat_map summary_lines (Dict.values (BudgetManager.categories self))
            ++ [TotalSpent (fsum (map BudgetCategory.spent
                                    (Dict.values (BudgetManager.categories self))))])
       w).
Proof.
  intros Hne. unfold BudgetManager.show_summary.
  do 3 (unfold bind at 1; unfold print at 1).
  unfold bind at 1. rewrite summary_loop_runs.
  destruct (BudgetManager.categories self) as [|[k c] cats] eqn:Hc;
    [contradiction|].
  cbn [Dict.values map]. unfold print, write, emit. simpl.
  rewrite <- !app_assoc. reflexivity.
Qed.

End Summary.

(** ** Sessions *)

Example strip_then_lower : PyStr.lower (PyStr.strip "  Dog Treats ") = "dog treats".
Proof. reflexivity. Qed.

(** "Food" is stored as "food"; an expense of 50 against a limit of 200
    leaves 150, and the total is 50. *)
Example session_within_limit :
  (m1 <- BudgetManager.add_category Sample.float_of_decimal
           (BudgetManager.mk []) "Food" 200 ;;
   m2 <- BudgetManager.add_expense m1 "food" 50 ;;
   BudgetManager.show_summary Sample.sum_left m2)
    (mkWorld ["no"] [] None)
  = (Ok tt,
     mkWorld []
       [AskHelp "food"; AddedCategory "food" 200; AddedExpense 50 "food";
        SummaryBanner; SummaryColumns; SummaryRule;
        SummaryRow "food" 50 200 150; SummaryRule; TotalSpent 50]
       None).
Proof. reflexivity. Qed.

(** An overage that the user confirms: spent 150 of 100, so [remaining]
    warns and gives -50. *)
Example session_overage_confirmed :
  (m1 <- BudgetManager.add_category Sample.float_of_decimal
           (BudgetManager.mk []) "food" 100 ;;
   m2 <- BudgetManager.add_expense m1 "food" 150 ;;
   BudgetManager.show_summary Sample.sum_left m2)
    (mkWorld ["no"; "yes"] [] None)
  = (Ok tt,
     mkWorld []
       [AskHelp "food"; AddedCategory "food" 100;
        WarnExceeds 150 "food"; AskProceed; AddedExpense 150 "food";
        SummaryBanner; SummaryColumns; SummaryRule;
        WarnExceeded "food"; SummaryRow "food" 150 100 (-50); SummaryRule;
        TotalSpent 150]
       None).
Proof. reflexivity. Qed.

(** The same overage declined: nothing is spent. *)
Example session_overage_declined :
  (m1 <- BudgetManager.add_category Sample.float_of_decimal
           (BudgetManager.mk []) "food" 100 ;;
   m2 <- BudgetManager.add_expense m1 "food" 150 ;;
   BudgetManager.show_summary Sample.sum_left m2)
    (mkWorld ["no"; "no"] [] None)
  = (Ok tt,
     mkWorld []
       [AskHelp "food"; AddedCategory "food" 100;
        WarnExceeds 150 "food"; AskProceed; ExpenseNotAdded;
        AddedExpense 150 "food";
        SummaryBanner; SummaryColumns; SummaryRule;
        SummaryRow "food" 0 100 100; SummaryRule; TotalSpent 0]
       None).
Proof. reflexivity. Qed.

(** A first run with no data file: the summary of the empty manager stops
    with the exception. *)
Example session_first_summary :
  (m <- BudgetManager.init ;; BudgetManager.show_summary Sample.sum_left m)
    Sample.quiet
  = (Raise (UnboundLocalError "total_spent"),
     mkWorld [] [SummaryBanner; SummaryColumns; SummaryRule] None).
Proof. reflexivity. Qed.

(** * Further properties of the code *)

(** ** More on dictionaries *)

Lemma get_set_other {V} (k k' : string) (v : V) (d : list (string * V)) :
  k' <> k -> Dict.get k' (Dict.set k v d) = Dict.get k' d.
Proof.
  intros Hne. induction d as [|[k0 v0] d IH]; simpl.
  - destruct (String.eqb_spec k' k); [contradiction | reflexivity].
  - destruct (String.eqb_spec k k0) as [->|Hk]; simpl.
    + destruct (String.eqb_spec k' k0); [contradiction | reflexivity].
    + destruct (String.eqb k' k0); [reflexivity | exact IH].
Qed.

(** Storing again the value a key already has changes nothing. *)
Lemma set_get_same {V} (k : string) (v : V) (d : list (string * V)) :
  Dict.get k d = Some v -> Dict.set k v d = d.
Proof.
  induction d as [|[k0 v0] d IH]; simpl; [discriminate|].
  destruct (String.eqb k k0).
  - intros H. inversion H. reflexivity.
  - intros H. rewrite (IH H). reflexivity.
Qed.

Lemma get_del_other {V} (k k' : string) (d : list (string * V)) :
  k' <> k -> Dict.get k' (Dict.del k d) = Dict.get k' d.
Proof.
  intros Hne. induction d as [|[k0 v0] d IH]; simpl; [reflexivity|].
  destruct (String.eqb_spec k k0) as [->|Hk]; simpl.
  - destruct (String.eqb_spec k' k0); [contradiction | reflexivity].
  - destruct (String.eqb k' k0); [reflexivity | exact IH].
Qed.

Lemma get_del_same {V} (k : string) (d : list (string * V)) :
  Dict.is_dict d -> Dict.get k (Dict.del k d) = None.
Proof.
  unfold Dict.is_dict. induction d as [|[k0 v0] d IH]; simpl; intros Hnd;
    [reflexivity|].
  inversion Hnd as [|? ? Hnotin Hnd']; subst.
  destruct (String.eqb_spec k k0) as [->|Hk]; simpl.
  - apply get_none_iff. exact Hnotin.
  - destruct (String.eqb_spec k k0); [contradiction | exact (IH Hnd')].
Qed.

Lemma del_appended {V} (k : string) (v : V) (d : list (string * V)) :
  Dict.get k d = None -> Dict.del k (d ++ [(k, v)]) = d.
Proof.
  induction d as [|[k0 v0] d IH]; simpl.
  - rewrite String.eqb_refl. reflexivity.
  - destruct (String.eqb k k0); [discriminate|].
    intros H. rewrite (IH H). reflexivity.
Qed.

Lemma is_dict_set {V} (k : string) (v : V) (d : list (string * V)) :
  Dict.is_dict d -> Dict.is_dict (Dict.set k v d).
Proof.
  unfold Dict.is_dict. intros Hnd.
  destruct (Dict.get k d) as [v0|] eqn:Hget.
  - rewrite keys_set_present; [exact Hnd|]. unfold Dict.mem. rewrite Hget.
    reflexivity.
  - rewrite (set_absent _ _ _ Hget). unfold Dict.keys. rewrite map_app. simpl.
    apply NoDup_app; [exact Hnd | repeat constructor; intros [] | ].
    intros x Hin [<-|[]]. apply get_none_iff in Hget. exact (Hget Hin).
Qed.

Lemma is_dict_del {V} (k : string) (d : list (string * V)) :
  Dict.is_dict d -> Dict.is_dict (Dict.del k d).
Proof.
  unfold Dict.is_dict. induction d as [|[k0 v0] d IH]; simpl; intros Hnd;
    [exact Hnd|].
  inversion Hnd as [|? ? Hnotin Hnd']; subst.
  destruct (String.eqb k k0); [exact Hnd'|].
  simpl. constructor; [|exact (IH Hnd')].
  intros Hin. apply Hnotin. exact (keys_del_incl _ _ _ Hin).
Qed.

Lemma Forall_set {V} (P : string * V -> Prop) (k : string) (v : V)
    (d : list (string * V)) :
  Forall P d -> P (k, v) -> Forall P (Dict.set k v d).
Proof.
  intros Hd Hkv. induction d as [|[k0 v0] d IH]; simpl.
  - repeat constructor. exact Hkv.
  - inversion Hd as [|? ? H0 Hd']; subst.
    destruct (String.eqb_spec k k0) as [->|Hk].
    + constructor; assumption.
    + constructor; [exact H0 | exact (IH Hd')].
Qed.

Lemma Forall_del {V} (P : string * V -> Prop) (k : string)
    (d : list (string * V)) :
  Forall P d -> Forall P (Dict.del k d).
Proof.
  intros Hd. induction d as [|[k0 v0] d IH]; simpl; [exact Hd|].
  inversion Hd as [|? ? H0 Hd']; subst.
  destruct (String.eqb k k0); [exact Hd'|].
  constructor; [exact H0 | exact (IH Hd')].
Qed.

Lemma get_Forall {V} (P : string * V -> Prop) (k : string) (v : V)
    (d : list (string * V)) :
  Forall P d -> Dict.get k d = Some v -> P (k, v).
Proof.
  intros Hd. induction d as [|[k0 v0] d IH]; simpl; [discriminate|].
  inversion Hd as [|? ? H0 Hd']; subst.
  destruct (String.eqb_spec k k0) as [->|Hk].
  - intros H. inversion H. subst. exact H0.
  - exact (IH Hd').
Qed.

(** ** BudgetCategory.add_expense, whatever the answer *)

Ltac exec :=
  cbv beta iota zeta delta
    [bind ret raise print input emit stdin stdout disk fst snd orb negb].

Ltac walk :=
  repeat (exec;
          match goal with
          | |- context [match ?x with nil => _ | cons _ _ => _ end] =>
              is_var x; destruct x
          | |- context [match ?x with _ => _ end] => destruct x eqn:?
          end).

Lemma category_add_expense_cases (self : BudgetCategory.t) (amount : float)
    (w w' : world) (r : result BudgetCategory.t) :
  BudgetCategory.add_expense self amount w = (r, w') ->
  match r with
  | Ok c' =>
      BudgetCategory.name c' = BudgetCategory.name self
      /\ BudgetCategory.limit c' = BudgetCategory.limit self
      /\ (BudgetCategory.spent c' = BudgetCategory.spent self
          \/ BudgetCategory.spent c'
             = (BudgetCategory.spent self + amount)%float)
  | Raise e => e = EOFError /\ stdin w = []
  end
  /\ disk w' = disk w
  /\ (stdin w' = stdin w \/ exists answer, stdin w = answer :: stdin w').
Proof.
  unfold BudgetCategory.add_expense. destruct w as [ins out d].
  walk; intros H; inversion H; subst; simpl; repeat split; eauto.
Qed.

(** An expense never touches the name, the limit or the data file; [spent]
    stays or becomes [spent + amount]; at most one line is read; the only
    exception is [EOFError], at a prompt with no input left. *)
Theorem category_add_expense_frame (self : BudgetCategory.t) (amount : float)
    (w w' : world) (r : result BudgetCategory.t) :
  BudgetCategory.add_expense self amount w = (r, w') ->
  match r with
  | Ok c' =>
      BudgetCategory.name c' = BudgetCategory.name self
      /\ BudgetCategory.limit c' = BudgetCategory.limit self
      /\ (BudgetCategory.spent c' = BudgetCategory.spent self
          \/ BudgetCategory.spent c'
             = (BudgetCategory.spent self + amount)%float)
  | Raise e => e = EOFError /\ stdin w = []
  end
  /\ disk w' = disk w
  /\ (stdin w' = stdin w \/ exists answer, stdin w = answer :: stdin w').
Proof.
  unfold BudgetCategory.add_expense. destruct w as [ins out d].
  walk; intros H; inversion H; subst; simpl; repeat split; eauto.
Qed.

Lemma category_add_expense_frame_witness :
  (EOFError = EOFError /\ @nil string = [])
  /\ @None value = None
  /\ (@nil string = [] \/ exists answer, @nil string = [answer]).
Proof.
  exact (category_add_expense_frame (BudgetCategory.mk "food" 100 0) 150
           Sample.quiet
           (mkWorld [] [WarnExceeds 150 "food"; AskProceed] None)
           (Raise EOFError) eq_refl).
Defined.

Lemma category_add_expense_reads_only (self : BudgetCategory.t) (amount : float) :
  reads_only (BudgetCategory.add_expense self amount).
Proof.
  intros w r w' H.
  destruct (category_add_expense_cases _ _ _ _ _ H) as [_ [Hd [Hs|[a Hs]]]];
    rewrite Hs; simpl; auto.
Qed.

(** ** BudgetManager.add_category, the remaining branches *)

Section AddCategoryMore.

Variable float_of_str : string -> option float.

(** With the offer of help declined, a limit [>= 0] is stored as given, in
    a new category placed last with nothing spent; a limit [< 0] is refused
    and nothing is stored. *)
Theorem add_category_direct (self : BudgetManager.t) (name : string)
    (limit : float) (answer : string) (rest : list string)
    (out : list message) (d : option value) :
  let key := PyStr.lower (PyStr.strip name) in
  let w := mkWorld (answer :: rest) out d in
  key <> "" ->
  Dict.mem key (BudgetManager.categories self) = false ->
  PyStr.lower (PyStr.strip answer) <> "yes" ->
  ((0 <=? limit)%float = true ->
   BudgetManager.add_category float_of_str self name limit w
   = (Ok (BudgetManager.mk
            (BudgetManager.categories self
             ++ [(key, BudgetCategory.mk key limit 0)])),
      mkWorld rest (out ++ [AskHelp key; AddedCategory key limit]) d))
  /\ ((limit <? 0)%float = true ->
      BudgetManager.add_category float_of_str self name limit w
      = (Ok self, mkWorld rest (out ++ [AskHelp key; LimitNegative]) d)).
Proof.
  intros key w Hkey Hnew Hno. subst w.
  apply String.eqb_neq in Hkey, Hno.
  unfold BudgetManager.add_category. fold key. rewrite Hnew, Hkey. exec.
  rewrite Hno. split; intros Hl.
  - rewrite (leb_not_ltb _ _ Hl). exec.
    rewrite set_absent by (apply mem_false_iff; exact Hnew).
    rewrite app_two. reflexivity.
  - rewrite Hl. exec. rewrite app_two. reflexivity.
Qed.

(** In the derived-limit mode the percentage is judged first, although it
    is asked for last: an unreadable percentage is reported as such whatever
    the income; an unreadable income is reported only when the percentage is
    acceptable.  Nothing is stored in either case. *)
Theorem add_category_unreadable (self : BudgetManager.t) (name : string)
    (limit : float) (help income_line percent_line : string)
    (rest : list string) (out : list message) (d : option value) :
  let key := PyStr.lower (PyStr.strip name) in
  let w := mkWorld (help :: income_line :: percent_line :: rest) out d in
  key <> "" ->
  Dict.mem key (BudgetManager.categories self) = false ->
  PyStr.lower (PyStr.strip help) = "yes" ->
  (float_of_str (PyStr.strip percent_line) = None ->
   BudgetManager.add_category float_of_str self name limit w
   = (Ok self, emit InvalidPercentage (asked_for_help key rest out d)))
  /\ (forall percentage,
        float_of_str (PyStr.strip percent_line) = Some percentage ->
        (percentage <? 0)%float = false ->
        gt percentage 100 = false ->
        float_of_str (PyStr.strip income_line) = None ->
        BudgetManager.add_category float_of_str self name limit w
        = (Ok self, emit InvalidIncome (asked_for_help key rest out d))).
Proof.
  intros key w Hkey Hnew Hhelp. subst w.
  apply String.eqb_neq in Hkey.
  unfold BudgetManager.add_category, asked_for_help. fold key.
  rewrite Hnew, Hkey. exec. rewrite Hhelp, String.eqb_refl. exec.
  rewrite !app_three. split.
  - intros Hp. rewrite Hp. reflexivity.
  - intros percentage Hp Hlo Hhi Hi. rewrite Hp, Hlo, Hhi, Hi. reflexivity.
Qed.

Lemma add_category_effect (self self' : BudgetManager.t) (name : string)
    (limit : float) (w w' : world) :
  BudgetManager.add_category float_of_str self name limit w = (Ok self', w') ->
  self' = self
  \/ (PyStr.lower (PyStr.strip name) <> ""
      /\ Dict.get (PyStr.lower (PyStr.strip name)) (BudgetManager.categories self)
         = None
      /\ exists lim,
           BudgetManager.categories self'
           = BudgetManager.categories self
             ++ [(PyStr.lower (PyStr.strip name),
                  BudgetCategory.mk (PyStr.lower (PyStr.strip name)) lim 0)]).
Proof.
  unfold BudgetManager.add_category.
  destruct (Dict.mem (PyStr.lower (PyStr.strip name)) (BudgetManager.categories self))
    eqn:Hmem; simpl orb; cbv iota.
  { exec. intros H; inversion H. now left. }
  destruct (String.eqb_spec (PyStr.lower (PyStr.strip name)) "") as [He|Hne].
  { exec. intros H; inversion H. now left. }
  destruct w as [ins out d].
  walk; intros H; inversion H; subst; try (now left);
    right; (split; [exact Hne|]); (split; [apply mem_false_iff; exact Hmem|]);
    eexists; simpl;
    (rewrite set_absent by (apply mem_false_iff; exact Hmem)); reflexivity.
Qed.

(** Whenever [add_category] returns, it has either left the manager as it
    was or appended exactly one category: under the trimmed, lowercased
    name, which is not empty and was not a key, named by that key, with
    nothing spent.  No existing category is changed, moved or removed. *)
Theorem add_category_appends (self self' : BudgetManager.t) (name : string)
    (limit : float) (w w' : world) :
  BudgetManager.add_category float_of_str self name limit w = (Ok self', w') ->
  self' = self
  \/ (PyStr.lower (PyStr.strip name) <> ""
      /\ Dict.get (PyStr.lower (PyStr.strip name)) (BudgetManager.categories self)
         = None
      /\ exists lim,
           BudgetManager.categories self'
           = BudgetManager.categories self
             ++ [(PyStr.lower (PyStr.strip name),
                  BudgetCategory.mk (PyStr.lower (PyStr.strip name)) lim 0)]).
Proof.
  unfold BudgetManager.add_category.
  destruct (Dict.mem (PyStr.lower (PyStr.strip name)) (BudgetManager.categories self))
    eqn:Hmem; simpl orb; cbv iota.
  { exec. intros H; inversion H. now left. }
  destruct (String.eqb_spec (PyStr.lower (PyStr.strip name)) "") as [He|Hne].
  { exec. intros H; inversion H. now left. }
  destruct w as [ins out d].
  walk; intros H; inversion H; subst; try (now left);
    right; (split; [exact Hne|]); (split; [apply mem_false_iff; exact Hmem|]);
    eexists; simpl;
    (rewrite set_absent by (apply mem_false_iff; exact Hmem)); reflexivity.
Qed.

Lemma add_category_reads_only (self : BudgetManager.t) (name : string)
    (limit : float) :
  reads_only (BudgetManager.add_category float_of_str self name limit).
Proof.
  intros w r w'. unfold BudgetManager.add_category. destruct w as [ins out d].
  walk; intros H; inversion H; subst; simpl; split; auto; lia.
Qed.

End AddCategoryMore.

Lemma add_category_direct_witness :
  let run_with limit :=
    BudgetManager.add_category Sample.float_of_decimal (BudgetManager.mk [])
      " Rent" limit (mkWorld ["no"] [] None) in
  run_with 900%float
  = (Ok (BudgetManager.mk [("rent", BudgetCategory.mk "rent" 900 0)]),
     mkWorld [] [AskHelp "rent"; AddedCategory "rent" 900] None)
  /\ run_with (-1)%float
     = (Ok (BudgetManager.mk []), mkWorld [] [AskHelp "rent"; LimitNegative] None).
Proof.
  assert (Hkey : PyStr.lower (PyStr.strip " Rent") <> "") by discriminate.
  assert (Hno : PyStr.lower (PyStr.strip "no") <> "yes") by discriminate.
  split.
  - exact (proj1 (add_category_direct Sample.float_of_decimal
                    (BudgetManager.mk []) " Rent" 900 "no" [] [] None
                    Hkey eq_refl Hno) eq_refl).
  - exact (proj2 (add_category_direct Sample.float_of_decimal
                    (BudgetManager.mk []) " Rent" (-1) "no" [] [] None
                    Hkey eq_refl Hno) eq_refl).
Defined.

Lemma add_category_unreadable_witness :
  let run_with income percent :=
    BudgetManager.add_category Sample.float_of_decimal (BudgetManager.mk [])
      "rent" 0 (mkWorld ["yes"; income; percent] [] None) in
  let asked := [AskHelp "rent"; AskIncome; AskPercent "rent"] in
  run_with "lots" "a fifth"
  = (Ok (BudgetManager.mk []), mkWorld [] (asked ++ [InvalidPercentage]) None)
  /\ run_with "lots" "20"
     = (Ok (BudgetManager.mk []), mkWorld [] (asked ++ [InvalidIncome]) None).
Proof.
  assert (Hkey : PyStr.lower (PyStr.strip "rent") <> "") by discriminate.
  split.
  - exact (proj1 (add_category_unreadable Sample.float_of_decimal
                    (BudgetManager.mk []) "rent" 0 "yes" "lots" "a fifth"
                    [] [] None Hkey eq_refl eq_refl) eq_refl).
  - exact (proj2 (add_category_unreadable Sample.float_of_decimal
                    (BudgetManager.mk []) "rent" 0 "yes" "lots" "20"
                    [] [] None Hkey eq_refl eq_refl)
             20%float eq_refl eq_refl eq_refl eq_refl).
Defined.

Lemma add_category_appends_witness :
  BudgetManager.mk [("rent", BudgetCategory.mk "rent" 900 0)] = BudgetManager.mk []
  \/ (PyStr.lower (PyStr.strip " Rent") <> ""
      /\ Dict.get (PyStr.lower (PyStr.strip " Rent")) (@nil (string * BudgetCategory.t))
         = None
      /\ exists lim,
           [("rent", BudgetCategory.mk "rent" 900 0)]
           = [] ++ [(PyStr.lower (PyStr.strip " Rent"),
                     BudgetCategory.mk (PyStr.lower (PyStr.strip " Rent")) lim 0)]).
Proof.
  exact (add_category_appends Sample.float_of_decimal (BudgetManager.mk [])
           (BudgetManager.mk [("rent", BudgetCategory.mk "rent" 900 0)])
           " Rent" 900 (mkWorld ["no"] [] None)
           (mkWorld [] [AskHelp "rent"; AddedCategory "rent" 900] None) eq_refl).
Defined.

(** ** BudgetManager.add_expense *)

(** An expense within the limit of an existing category updates that
    category in place: it alone changes, to [spent + amount]; the keys and
    their order stay; "Added expense" is written and nothing is read. *)
Theorem manager_add_expense_within_limit (self : BudgetManager.t)
    (name : string) (amount : float) (c : BudgetCategory.t) (w : world) :
  Dict.get name (BudgetManager.categories self) = Some c ->
  (BudgetCategory.spent c + amount <=? BudgetCategory.limit c)%float = true ->
  exists self',
    BudgetManager.add_expense self name amount w
    = (Ok self', emit (AddedExpense amount name) w)
    /\ Dict.get name (BudgetManager.categories self')
       = Some (BudgetCategory.set_spent c (BudgetCategory.spent c + amount)%float)
    /\ Dict.keys (BudgetManager.categories self')
       = Dict.keys (BudgetManager.categories self)
    /\ forall other, other <> name ->
         Dict.get other (BudgetManager.categories self')
         = Dict.get other (BudgetManager.categories self).
Proof.
  intros Hget Hle. eexists. split; [|split; [|split]].
  - unfold BudgetManager.add_expense, BudgetCategory.add_expense.
    rewrite Hget, (leb_not_gt _ _ Hle). reflexivity.
  - apply get_set_same.
  - apply keys_set_present. unfold Dict.mem. rewrite Hget. reflexivity.
  - intros other Hne. apply get_set_other. exact Hne.
Qed.

Lemma manager_add_expense_within_limit_witness :
  exists self',
    BudgetManager.add_expense
      (BudgetManager.mk [("food", BudgetCategory.mk "food" 200 0);
                         ("rent", BudgetCategory.mk "rent" 900 0)])
      "food" 50 Sample.quiet
    = (Ok self', emit (AddedExpense 50 "food") Sample.quiet)
    /\ Dict.get "food" (BudgetManager.categories self')
       = Some (BudgetCategory.set_spent (BudgetCategory.mk "food" 200 0) (0 + 50)%float)
    /\ Dict.keys (BudgetManager.categories self') = ["food"; "rent"]
    /\ forall other, other <> "food" ->
         Dict.get other (BudgetManager.categories self')
         = Dict.get other [("food", BudgetCategory.mk "food" 200 0);
                           ("rent", BudgetCategory.mk "rent" 900 0)].
Proof.
  exact (manager_add_expense_within_limit
           (BudgetManager.mk [("food", BudgetCategory.mk "food" 200 0);
                              ("rent", BudgetCategory.mk "rent" 900 0)])
           "food" 50 (BudgetCategory.mk "food" 200 0) Sample.quiet
           eq_refl eq_refl).
Defined.

(** An overage that the user declines leaves the manager exactly as it
    was, and yet "Added expense" is written after "Expense not added". *)
Theorem manager_add_expense_declined (self : BudgetManager.t) (name : string)
    (amount : float) (c : BudgetCategory.t) (answer : string)
    (rest : list string) (out : list message) (d : option value) :
  Dict.get name (BudgetManager.categories self) = Some c ->
  gt (BudgetCategory.spent c + amount)%float (BudgetCategory.limit c) = true ->
  PyStr.lower (PyStr.strip answer) = "no" ->
  BudgetManager.add_expense self name amount (mkWorld (answer :: rest) out d)
  = (Ok self,
     mkWorld rest
       (out ++ [WarnExceeds amount (BudgetCategory.name c); AskProceed;
                ExpenseNotAdded; AddedExpense amount name]) d).
Proof.
  intros Hget Hgt Hno. destruct self as [cats]. simpl in Hget.
  unfold BudgetManager.add_expense, BudgetCategory.add_expense.
  cbn [BudgetManager.categories]. rewrite Hget, Hgt. exec. rewrite Hno.
  cbn [String.eqb Ascii.eqb Bool.eqb]. exec.
  rewrite (set_get_same _ _ _ Hget), <- !app_assoc. reflexivity.
Qed.

Lemma manager_add_expense_declined_witness :
  let self := BudgetManager.mk [("food", BudgetCategory.mk "food" 100 0)] in
  BudgetManager.add_expense self "food" 150 (mkWorld ["no"] [] None)
  = (Ok self,
     mkWorld []
       [WarnExceeds 150 "food"; AskProceed; ExpenseNotAdded;
        AddedExpense 150 "food"] None).
Proof.
  exact (manager_add_expense_declined
           (BudgetManager.mk [("food", BudgetCategory.mk "food" 100 0)])
           "food" 150 (BudgetCategory.mk "food" 100 0) "no" [] [] None
           eq_refl eq_refl eq_refl).
Defined.

Lemma manager_add_expense_effect (self self' : BudgetManager.t) (name : string)
    (amount : float) (w w' : world) :
  BudgetManager.add_expense self name amount w = (Ok self', w') ->
  self' = self
  \/ exists c c',
       Dict.get name (BudgetManager.categories self) = Some c
       /\ BudgetCategory.name c' = BudgetCategory.name c
       /\ BudgetManager.categories self'
          = Dict.set name c' (BudgetManager.categories self).
Proof.
  unfold BudgetManager.add_expense.
  destruct (Dict.get name (BudgetManager.categories self)) as [c|] eqn:Hget.
  - unfold bind at 1.
    destruct (BudgetCategory.add_expense c amount w) as [[c'|e] w1] eqn:Hc;
      exec; intros H; inversion H; subst.
    right. exists c, c'. repeat split.
    exact (proj1 (proj1 (category_add_expense_cases _ _ _ _ _ Hc))).
  - exec. intros H; inversion H. now left.
Qed.

Lemma manager_add_expense_reads_only (self : BudgetManager.t) (name : string)
    (amount : float) :
  reads_only (BudgetManager.add_expense self name amount).
Proof.
  intros w r w'. unfold BudgetManager.add_expense.
  destruct (Dict.get name (BudgetManager.categories self)) as [c|].
  - unfold bind at 1.
    destruct (BudgetCategory.add_expense c amount w) as [[c'|e] w1] eqn:Hc;
      exec; intros H; inversion H; subst; simpl;
      exact (category_add_expense_reads_only _ _ _ _ _ Hc).
  - exec. intros H; inversion H; subst. simpl. split; auto.
Qed.

(** ** BudgetManager.remove_category *)

(** For a category that exists: only the answer "yes" removes it, and then
    the name is no longer a key while every other lookup is as before; any
    other answer cancels and leaves the manager as it was. *)
Theorem remove_category_present (self : BudgetManager.t) (name : string)
    (answer : string) (rest : list string) (out : list message)
    (d : option value) :
  Dict.is_dict (BudgetManager.categories self) ->
  Dict.mem name (BudgetManager.categories self) = true ->
  (PyStr.lower (PyStr.strip answer) = "yes" ->
   exists self',
     BudgetManager.remove_category self name (mkWorld (answer :: rest) out d)
     = (Ok self', mkWorld rest (out ++ [AskRemove name; RemovedCategory name]) d)
     /\ Dict.get name (BudgetManager.categories self') = None
     /\ forall other, other <> name ->
          Dict.get other (BudgetManager.categories self')
          = Dict.get other (BudgetManager.categories self))
  /\ (PyStr.lower (PyStr.strip answer) <> "yes" ->
      BudgetManager.remove_category self name (mkWorld (answer :: rest) out d)
      = (Ok self, mkWorld rest (out ++ [AskRemove name; RemovalCancelled]) d)).
Proof.
  intros Hd Hmem. unfold BudgetManager.remove_category. rewrite Hmem. exec.
  split.
  - intros Hyes. rewrite Hyes. cbn [String.eqb Ascii.eqb Bool.eqb]. exec.
    eexists. split; [rewrite app_two; reflexivity|]. split.
    + apply get_del_same. exact Hd.
    + intros other Hne. apply get_del_other. exact Hne.
  - intros Hno. apply String.eqb_neq in Hno. rewrite Hno. exec.
    rewrite app_two. reflexivity.
Qed.

Lemma remove_category_present_witness :
  let food := ("food", BudgetCategory.mk "food" 200 50) in
  let rent := ("rent", BudgetCategory.mk "rent" 900 0) in
  (exists self',
     BudgetManager.remove_category (BudgetManager.mk [food; rent]) "food"
       (mkWorld [" Yes"] [] None)
     = (Ok self', mkWorld [] [AskRemove "food"; RemovedCategory "food"] None)
     /\ Dict.get "food" (BudgetManager.categories self') = None
     /\ forall other, other <> "food" ->
          Dict.get other (BudgetManager.categories self')
          = Dict.get other [food; rent])
  /\ BudgetManager.remove_category (BudgetManager.mk [food; rent]) "food"
       (mkWorld ["y"] [] None)
     = (Ok (BudgetManager.mk [food; rent]),
        mkWorld [] [AskRemove "food"; RemovalCancelled] None).
Proof.
  assert (Hd : Dict.is_dict [("food", BudgetCategory.mk "food" 200 50);
                             ("rent", BudgetCategory.mk "rent" 900 0)]).
  { repeat constructor; simpl; intuition discriminate. }
  split.
  - exact (proj1 (remove_category_present
                    (BudgetManager.mk [("food", BudgetCategory.mk "food" 200 50);
                                       ("rent", BudgetCategory.mk "rent" 900 0)])
                    "food" " Yes" [] [] None Hd eq_refl) eq_refl).
  - refine (proj2 (remove_category_present
                     (BudgetManager.mk [("food", BudgetCategory.mk "food" 200 50);
                                        ("rent", BudgetCategory.mk "rent" 900 0)])
                     "food" "y" [] [] None Hd eq_refl) _).
    discriminate.
Defined.

Lemma remove_category_effect (self self' : BudgetManager.t) (name : string)
    (w w' : world) :
  BudgetManager.remove_category self name w = (Ok self', w') ->
  self' = self
  \/ BudgetManager.categories self' = Dict.del name (BudgetManager.categories self).
Proof.
  unfold BudgetManager.remove_category. destruct w as [ins out d].
  walk; intros H; inversion H; subst; auto.
Qed.

Lemma remove_category_reads_only (self : BudgetManager.t) (name : string) :
  reads_only (BudgetManager.remove_category self name).
Proof.
  intros w r w'. unfold BudgetManager.remove_category. destruct w as [ins out d].
  walk; intros H; inversion H; subst; simpl; split; auto; lia.
Qed.

Section Composition.

Variable float_of_str : string -> option float.

(** Creating a category with a given limit and removing it at once, under
    the key it was stored with, gives back the manager one started from. *)
Theorem add_then_remove (self : BudgetManager.t) (name : string)
    (limit : float) (no yes : string) (rest : list string)
    (out : list message) (d : option value) :
  let key := PyStr.lower (PyStr.strip name) in
  key <> "" ->
  Dict.mem key (BudgetManager.categories self) = false ->
  PyStr.lower (PyStr.strip no) <> "yes" ->
  PyStr.lower (PyStr.strip yes) = "yes" ->
  (0 <=? limit)%float = true ->
  (created <- BudgetManager.add_category float_of_str self name limit ;;
   BudgetManager.remove_category created key)
    (mkWorld (no :: yes :: rest) out d)
  = (Ok self,
     mkWorld rest
       (out ++ [AskHelp key; AddedCategory key limit;
                AskRemove key; RemovedCategory key]) d).
Proof.
  intros key Hkey Hnew Hno Hyes Hl.
  pose proof Hnew as Hnone. apply mem_false_iff in Hnone.
  apply String.eqb_neq in Hkey, Hno.
  unfold bind at 1. unfold BudgetManager.add_category. fold key.
  rewrite Hnew, Hkey. exec. rewrite Hno, (leb_not_ltb _ _ Hl). exec.
  unfold BudgetManager.remove_category. cbn [BudgetManager.categories].
  unfold Dict.mem. rewrite get_set_same. exec. rewrite Hyes.
  cbn [String.eqb Ascii.eqb Bool.eqb]. exec.
  rewrite (set_absent _ _ _ Hnone), (del_appended _ _ _ Hnone), <- !app_assoc.
  destruct self. reflexivity.
Qed.

Lemma names_match_keys_steps (self self' : BudgetManager.t) (name : string)
    (x : float) (w w' : world) :
  names_match_keys self ->
  (BudgetManager.add_category float_of_str self name x w = (Ok self', w') ->
   names_match_keys self')
  /\ (BudgetManager.add_expense self name x w = (Ok self', w') ->
      names_match_keys self')
  /\ (BudgetManager.remove_category self name w = (Ok self', w') ->
      names_match_keys self').
Proof.
  unfold names_match_keys. intros Hinv. split; [|split]; intros Hrun.
  - destruct (add_category_effect _ _ _ _ _ _ _ Hrun) as [->|[_ [_ [lim Hnew]]]];
      [exact Hinv|].
    rewrite Hnew. apply Forall_app. split; [exact Hinv|].
    repeat constructor.
  - destruct (manager_add_expense_effect _ _ _ _ _ _ Hrun)
      as [->|[c [c' [Hget [Hname Hnew]]]]]; [exact Hinv|].
    rewrite Hnew. apply Forall_set; [exact Hinv|]. simpl. rewrite Hname.
    exact (get_Forall _ _ _ _ Hinv Hget).
  - destruct (remove_category_effect _ _ _ _ _ Hrun) as [->|Hnew];
      [exact Hinv|].
    rewrite Hnew. apply Forall_del. exact Hinv.
Qed.

(** Each of the three operations that change the dictionary keeps every
    category stored under its own name. *)
Theorem names_match_keys_kept (self self' : BudgetManager.t) (name : string)
    (x : float) (w w' : world) :
  names_match_keys self ->
  (BudgetManager.add_category float_of_str self name x w = (Ok self', w') ->
   names_match_keys self')
  /\ (BudgetManager.add_expense self name x w = (Ok self', w') ->
      names_match_keys self')
  /\ (BudgetManager.remove_category self name w = (Ok self', w') ->
      names_match_keys self').
Proof.
  unfold names_match_keys. intros Hinv. split; [|split]; intros Hrun.
  - destruct (add_category_effect _ _ _ _ _ _ _ Hrun) as [->|[_ [_ [lim Hnew]]]];
      [exact Hinv|].
    rewrite Hnew. apply Forall_app. split; [exact Hinv|].
    repeat constructor.
  - destruct (manager_add_expense_effect _ _ _ _ _ _ Hrun)
      as [->|[c [c' [Hget [Hname Hnew]]]]]; [exact Hinv|].
    rewrite Hnew. apply Forall_set; [exact Hinv|]. simpl. rewrite Hname.
    exact (get_Forall _ _ _ _ Hinv Hget).
  - destruct (remove_category_effect _ _ _ _ _ Hrun) as [->|Hnew];
      [exact Hinv|].
    rewrite Hnew. apply Forall_del. exact Hinv.
Qed.

End Composition.

Lemma add_then_remove_witness :
  let self := BudgetManager.mk [("food", BudgetCategory.mk "food" 200 50)] in
  (created <- BudgetManager.add_category Sample.float_of_decimal self " Rent" 900 ;;
   BudgetManager.remove_category created (PyStr.lower (PyStr.strip " Rent")))
    (mkWorld ["no"; "yes"] [] None)
  = (Ok self,
     mkWorld []
       [AskHelp "rent"; AddedCategory "rent" 900;
        AskRemove "rent"; RemovedCategory "rent"] None).
Proof.
  refine (add_then_remove Sample.float_of_decimal
            (BudgetManager.mk [("food", BudgetCategory.mk "food" 200 50)])
            " Rent" 900 "no" "yes" [] [] None _ eq_refl _ eq_refl eq_refl);
    discriminate.
Defined.

Lemma names_match_keys_kept_witness :
  names_match_keys (BudgetManager.mk [("rent", BudgetCategory.mk "rent" 900 0)]).
Proof.
  refine (proj1 (names_match_keys_kept Sample.float_of_decimal
                   (BudgetManager.mk [])
                   (BudgetManager.mk [("rent", BudgetCategory.mk "rent" 900 0)])
                   " Rent" 900 (mkWorld ["no"] [] None)
                   (mkWorld [] [AskHelp "rent"; AddedCategory "rent" 900] None)
                   _) eq_refl).
  constructor.
Defined.

(** ** BudgetManager.show_summary with categories *)

Lemma show_summary_nonempty_witness :
  BudgetManager.show_summary Sample.sum_left
    (BudgetManager.mk [("food", BudgetCategory.mk "food" 200 50);
                       ("rent", BudgetCategory.mk "rent" 900 950)])
    Sample.quiet
  = (Ok tt,
     mkWorld []
       [SummaryBanner; SummaryColumns; SummaryRule;
        SummaryRow "food" 50 200 150; SummaryRule;
        WarnExceeded "rent"; SummaryRow "rent" 950 900 (-50); SummaryRule;
        TotalSpent 1000] None).
Proof.
  refine (show_summary_nonempty Sample.sum_left
            (BudgetManager.mk [("food", BudgetCategory.mk "food" 200 50);
                               ("rent", BudgetCategory.mk "rent" 900 950)])
            Sample.quiet _).
  discriminate.
Defined.

(** ** BudgetManager.load_data *)

Lemma from_dict_returns (data : list (string * value)) (c : BudgetCategory.t) :
  BudgetCategory.from_dict data = Ok c ->
  Dict.get "name" data = Some (VStr (BudgetCategory.name c))
  /\ Dict.get "limit" data = Some (VFloat (BudgetCategory.limit c))
  /\ Dict.get "spent" data = Some (VFloat (BudgetCategory.spent c)).
Proof.
  unfold BudgetCategory.from_dict, BudgetCategory.subscript.
  destruct (Dict.get "name" data) as [n|]; [|discriminate].
  destruct (Dict.get "limit" data) as [l|]; [|discriminate].
  destruct (Dict.get "spent" data) as [sp|]; [|discriminate].
  destruct n; try discriminate; destruct l; try discriminate;
    destruct sp; try discriminate.
  intros H. inversion H. subst. simpl. auto.
Qed.

(** On an annotated record [from_dict] fails as the source does: with
    [KeyError], on the first of the three fields that is missing. *)
Lemma from_dict_raises (data : list (string * value)) (e : exn) :
  annotated_record data ->
  BudgetCategory.from_dict data = Raise e ->
  exists field,
    In field ["name"; "limit"; "spent"]
    /\ Dict.get field data = None
    /\ e = KeyError field.
Proof.
  intros [Hn [Hl Hs]].
  unfold BudgetCategory.from_dict, BudgetCategory.subscript.
  destruct (Dict.get "name" data) as [n|] eqn:En.
  2:{ intros H. inversion H. exists "name". simpl. auto. }
  destruct (Dict.get "limit" data) as [l|] eqn:El.
  2:{ intros H. inversion H. exists "limit". simpl. auto. }
  destruct (Dict.get "spent" data) as [sp|] eqn:Es.
  2:{ intros H. inversion H. exists "spent". simpl. auto. }
  destruct (Hn n eq_refl) as [n' ->]. destruct (Hl l eq_refl) as [l' ->].
  destruct (Hs sp eq_refl) as [sp' ->]. discriminate.
Qed.

Lemma load_items_outcome (items : list (string * value)) :
  forall acc : list (string * BudgetCategory.t),
    NoDup (Dict.keys acc ++ Dict.keys items) ->
    annotated_items items ->
    match BudgetManager.load_items items acc with
    | Ok cats =>
        exists loaded, cats = acc ++ loaded /\ Forall2 loads_as items loaded
    | Raise e =>
        exists before k v after,
          items = before ++ (k, v) :: after
          /\ Forall (fun item => exists entry, loads_as item entry) before
          /\ ((forall data, v <> VDict data) /\ e = TypeError
              \/ exists data field,
                   v = VDict data
                   /\ In field ["name"; "limit"; "spent"]
                   /\ Dict.get field data = None
                   /\ e = KeyError field)
    end.
Proof.
  induction items as [|[k v] items IH]; intros acc Hnd Hann.
  - simpl. exists []. rewrite app_nil_r. split; constructor.
  - cbn [BudgetManager.load_items].
    inversion Hann as [|? ? Hv Hann']; subst. simpl in Hv.
    assert (Hbad : (forall data, v <> VDict data) ->
              exists before k0 v0 after,
                (k, v) :: items = before ++ (k0, v0) :: after
                /\ Forall (fun item => exists entry, loads_as item entry) before
                /\ ((forall data, v0 <> VDict data) /\ TypeError = TypeError
                    \/ exists data field,
                         v0 = VDict data
                         /\ In field ["name"; "limit"; "spent"]
                         /\ Dict.get field data = None
                         /\ TypeError = KeyError field)).
    { intros Hno. exists [], k, v, items. split; [reflexivity|].
      split; [constructor|]. left. split; [exact Hno | reflexivity]. }
    destruct v as [ | b | z | f | str | l | data];
      try (apply Hbad; intros data; discriminate).
    clear Hbad.
    destruct (BudgetCategory.from_dict data) as [c|e] eqn:Hfd.
    + simpl in Hnd. rewrite set_absent.
      * assert (Hnd' : NoDup (Dict.keys (acc ++ [(k, c)]) ++ Dict.keys items))
          by (rewrite keys_app; apply nodup_snoc; exact Hnd).
        assert (Hk : loads_as (k, VDict data) (k, c)).
        { split; [reflexivity|]. exists data. split; [reflexivity|].
          exact (from_dict_returns _ _ Hfd). }
        specialize (IH (acc ++ [(k, c)]) Hnd' Hann').
        destruct (BudgetManager.load_items items (acc ++ [(k, c)])) as [cats|e].
        -- destruct IH as [loaded [-> Hall]]. exists ((k, c) :: loaded).
           rewrite <- app_assoc. split; [reflexivity|].
           constructor; [exact Hk | exact Hall].
        -- destruct IH as [before [k0 [v0 [after [-> [Hbefore Hwhy]]]]]].
           exists ((k, VDict data) :: before), k0, v0, after.
           split; [reflexivity|]. split; [|exact Hwhy].
           constructor; [exists (k, c); exact Hk | exact Hbefore].
      * apply get_none_iff. intros Hin.
        apply (NoDup_remove_2 _ _ _ Hnd). apply in_or_app. now left.
    + destruct (from_dict_raises data e (Hv data eq_refl) Hfd)
        as [field [Hin [Hget ->]]].
      exists [], k, (VDict data), items. split; [reflexivity|].
      split; [constructor|]. right. exists data, field. auto.
Qed.

(** [load_data] on a file that holds a JSON document.  With no file the
    manager is returned as it is; a document that is not an object raises
    [AttributeError]; for an object with annotated records loading is all
    or nothing: it either gives one category per item, in order, under the
    key the item has in the file (kept as it is) and with the record's
    name, limit and spent, or it raises at the first item that is not an
    object ([TypeError]) or lacks a field ([KeyError] on that field).  The
    world is left as it was in every case. *)
Theorem load_data_all_or_nothing (self : BudgetManager.t) (w w' : world)
    (r : result BudgetManager.t) :
  BudgetManager.load_data self w = (r, w') ->
  w' = w
  /\ match disk w with
     | None => r = Ok self
     | Some (VDict items) =>
         Dict.is_dict items ->
         annotated_items items ->
         match r with
         | Ok self' => Forall2 loads_as items (BudgetManager.categories self')
         | Raise e =>
             exists before k v after,
               items = before ++ (k, v) :: after
               /\ Forall (fun item => exists entry, loads_as item entry) before
               /\ ((forall data, v <> VDict data) /\ e = TypeError
                   \/ exists data field,
                        v = VDict data
                        /\ In field ["name"; "limit"; "spent"]
                        /\ Dict.get field data = None
                        /\ e = KeyError field)
         end
     | Some _ => r = Raise AttributeError
     end.
Proof.
  unfold BudgetManager.load_data.
  destruct (disk w) as [[ | | | | | |items]|];
    try (intros H; inversion H; subst; split; reflexivity).
  pose proof (load_items_outcome items []) as Hcases.
  destruct (BudgetManager.load_items items []) as [cats|e];
    intros H; inversion H; subst; (split; [reflexivity|]); intros Hd Hann;
    specialize (Hcases Hd Hann).
  - destruct Hcases as [loaded [-> Hall]]. exact Hall.
  - exact Hcases.
Qed.

Lemma load_data_all_or_nothing_witness :
  let food :=
    ("Food", VDict [("name", VStr "food"); ("limit", VFloat 200);
                    ("spent", VFloat 50)]) in
  let rent := ("rent", VDict [("name", VStr "rent"); ("limit", VFloat 900)]) in
  exists before k v after,
    [food; rent; ("pets", VNone)] = before ++ (k, v) :: after
    /\ Forall (fun item => exists entry, loads_as item entry) before
    /\ ((forall data, v <> VDict data) /\ KeyError "spent" = TypeError
        \/ exists data field,
             v = VDict data
             /\ In field ["name"; "limit"; "spent"]
             /\ Dict.get field data = None
             /\ KeyError "spent" = KeyError field).
Proof.
  refine (proj2 (load_data_all_or_nothing (BudgetManager.mk [])
                   (mkWorld [] []
                      (Some (VDict
                         [("Food", VDict [("name", VStr "food");
                                          ("limit", VFloat 200);
                                          ("spent", VFloat 50)]);
                          ("rent", VDict [("name", VStr "rent");
                                          ("limit", VFloat 900)]);
                          ("pets", VNone)])))
                   _ (Raise (KeyError "spent")) eq_refl) _ _).
  - repeat constructor; simpl; intuition discriminate.
  - unfold annotated_items.
    repeat apply Forall_cons; try apply Forall_nil; simpl; intros data H;
      inversion H; subst; repeat split; intros v Hget; simpl in Hget;
      inversion Hget; eauto.
Defined.

(** ** main *)

Ltac shell_exec :=
  cbv beta iota zeta delta
    [Shell.sbind Shell.sret Shell.say Shell.ask Shell.call
     Shell.term_in Shell.term_out Shell.file fst snd].

Lemma load_items_is_dict (items : list (string * value)) :
  forall acc cats,
    Dict.is_dict acc ->
    BudgetManager.load_items items acc = Ok cats ->
    Dict.is_dict cats.
Proof.
  induction items as [|[k v] items IH]; intros acc cats Hacc; simpl.
  - intros H. inversion H. subst. exact Hacc.
  - destruct v; try discriminate.
    destruct (BudgetCategory.from_dict d) as [c|e]; [|discriminate].
    apply IH. apply is_dict_set. exact Hacc.
Qed.

Lemma init_cases (w w' : world) (r : result BudgetManager.t) :
  BudgetManager.init w = (r, w') ->
  w' = w
  /\ match r with
     | Ok m =>
         Dict.is_dict (BudgetManager.categories m)
         /\ (disk w = None -> m = BudgetManager.mk [])
     | Raise _ => True
     end.
Proof.
  unfold BudgetManager.init, BudgetManager.load_data.
  destruct (disk w) as [[ | | | | | |items]|] eqn:Hd;
    try (intros H; inversion H; subst; split; [reflexivity | exact I]).
  - destruct (BudgetManager.load_items items []) as [cats|e] eqn:Hl;
      intros H; inversion H; subst; (split; [reflexivity|]); [|exact I].
    split; [|congruence].
    exact (load_items_is_dict items [] cats (NoDup_nil _) Hl).
  - intros H; inversion H; subst. split; [reflexivity|].
    split; [constructor | reflexivity].
Qed.

(** A manager constructed on the file that [save_data] wrote equals the one
    saved. *)
Lemma init_after_dump (cats : list (string * BudgetCategory.t))
    (ins : list string) (out : list message) :
  Dict.is_dict cats ->
  BudgetManager.init
    (mkWorld ins out (Some (VDict (BudgetManager.dump_items cats))))
  = (Ok (BudgetManager.mk cats),
     mkWorld ins out (Some (VDict (BudgetManager.dump_items cats)))).
Proof.
  intros Hd.
  unfold BudgetManager.init, BudgetManager.load_data, BudgetManager.dump_items.
  simpl disk. rewrite dump_fold by exact Hd. simpl app.
  rewrite load_items_written by exact Hd. reflexivity.
Qed.

Section Main.

Variable float_of_str : string -> option float.
Variable fsum : list float -> float.

Lemma show_summary_reads_only (self : BudgetManager.t) :
  reads_only (BudgetManager.show_summary fsum self).
Proof.
  intros w r w'. unfold BudgetManager.show_summary.
  do 3 (unfold bind at 1; unfold print at 1).
  unfold bind at 1. rewrite summary_loop_runs.
  destruct (Dict.values (BudgetManager.categories self));
    intros H; inversion H; subst; simpl; auto.
Qed.

(** One round of the loop, for an invariant [P] of the manager that the
    three changing operations keep. *)
Lemma iteration_cases (P : BudgetManager.t -> Prop) :
  (forall m name x w m' w',
      P m -> BudgetManager.add_category float_of_str m name x w = (Ok m', w') -> P m') ->
  (forall m name x w m' w',
      P m -> BudgetManager.add_expense m name x w = (Ok m', w') -> P m') ->
  (forall m name w m' w',
      P m -> BudgetManager.remove_category m name w = (Ok m', w') -> P m') ->
  forall manager s r s',
    P manager ->
    Shell.iteration float_of_str fsum manager s = (r, s') ->
    match r with
    | Ok (Some manager') =>
        P manager'
        /\ Shell.file s' = Shell.file s
        /\ (List.length (Shell.term_in s') < List.length (Shell.term_in s))%nat
    | Ok None =>
        Shell.file s'
        = Some (VDict (BudgetManager.dump_items (BudgetManager.categories manager)))
    | Raise _ => Shell.file s' = Shell.file s
    end.
Proof.
  intros Hadd Hexp Hrem manager [ins out d] r s' HP.
  unfold Shell.iteration. shell_exec.
  destruct ins as [|line ins]; [intros H; inversion H; reflexivity|].
  destruct (String.eqb (PyStr.strip line) "1").
  { destruct ins as [|l1 ins]; [intros H; inversion H; reflexivity|].
    destruct ins as [|l2 ins]; [intros H; inversion H; reflexivity|].
    destruct (float_of_str l2) as [limit|].
    - destruct (BudgetManager.add_category float_of_str manager
                  (PyStr.strip l1) limit (mkWorld ins [] d)) as [[m'|e] w1] eqn:Hop;
        pose proof (add_category_reads_only _ _ _ _ _ _ _ Hop) as [Hd Hl];
        simpl in Hd, Hl; intros H; inversion H; subst; simpl; auto.
      repeat split; eauto; lia.
    - intros H; inversion H; subst; simpl. repeat split; auto; lia. }
  destruct (String.eqb (PyStr.strip line) "2").
  { destruct ins as [|l1 ins]; [intros H; inversion H; reflexivity|].
    destruct (BudgetManager.remove_category manager (PyStr.strip l1)
                (mkWorld ins [] d)) as [[m'|e] w1] eqn:Hop;
      pose proof (remove_category_reads_only _ _ _ _ _ Hop) as [Hd Hl];
      simpl in Hd, Hl; intros H; inversion H; subst; simpl; auto.
    repeat split; eauto; lia. }
  destruct (String.eqb (PyStr.strip line) "3").
  { destruct ins as [|l1 ins]; [intros H; inversion H; reflexivity|].
    destruct ins as [|l2 ins]; [intros H; inversion H; reflexivity|].
    destruct (float_of_str l2) as [amount|].
    - destruct (BudgetManager.add_expense manager (PyStr.strip l1) amount
                  (mkWorld ins [] d)) as [[m'|e] w1] eqn:Hop;
        pose proof (manager_add_expense_reads_only _ _ _ _ _ _ Hop) as [Hd Hl];
        simpl in Hd, Hl; intros H; inversion H; subst; simpl; auto.
      repeat split; eauto; lia.
    - intros H; inversion H; subst; simpl. repeat split; auto; lia. }
  destruct (String.eqb (PyStr.strip line) "4").
  { destruct (BudgetManager.show_summary fsum manager (mkWorld ins [] d))
      as [[[]|e] w1] eqn:Hop;
      pose proof (show_summary_reads_only _ _ _ _ Hop) as [Hd Hl];
      simpl in Hd, Hl; intros H; inversion H; subst; simpl; auto.
    repeat split; auto; lia. }
  destruct (String.eqb (PyStr.strip line) "5").
  { unfold BudgetManager.save_data. intros H; inversion H; subst. reflexivity. }
  intros H; inversion H; subst; simpl. repeat split; auto; lia.
Qed.

Lemma main_loop_cases (P : BudgetManager.t -> Prop) :
  (forall m name x w m' w',
      P m -> BudgetManager.add_category float_of_str m name x w = (Ok m', w') -> P m') ->
  (forall m name x w m' w',
      P m -> BudgetManager.add_expense m name x w = (Ok m', w') -> P m') ->
  (forall m name w m' w',
      P m -> BudgetManager.remove_category m name w = (Ok m', w') -> P m') ->
  forall fuel manager s r s',
    P manager ->
    Shell.main_loop float_of_str fsum fuel manager s = Some (r, s') ->
    match r with
    | Ok _ =>
        exists m,
          P m
          /\ Shell.file s'
             = Some (VDict (BudgetManager.dump_items (BudgetManager.categories m)))
    | Raise _ => Shell.file s' = Shell.file s
    end.
Proof.
  intros Hadd Hexp Hrem.
  induction fuel as [|fuel IH]; intros manager s r s' HP; simpl; [discriminate|].
  destruct (Shell.iteration float_of_str fsum manager s) as [[[m'|]|e] s1] eqn:Hit;
    pose proof (iteration_cases P Hadd Hexp Hrem _ _ _ _ HP Hit) as Hc.
  - destruct Hc as [HP' [Hf _]]. intros Hrun.
    specialize (IH _ _ _ _ HP' Hrun). rewrite Hf in IH. exact IH.
  - intros H; inversion H; subst. exists manager. split; assumption.
  - intros H; inversion H; subst. exact Hc.
Qed.

Lemma main_loop_returns (fuel : nat) :
  forall manager s,
    (List.length (Shell.term_in s) < fuel)%nat ->
    exists r s', Shell.main_loop float_of_str fsum fuel manager s = Some (r, s').
Proof.
  induction fuel as [|fuel IH]; intros manager s Hlen; [lia|]. simpl.
  destruct (Shell.iteration float_of_str fsum manager s) as [[[m'|]|e] s1] eqn:Hit;
    [|eauto|eauto].
  pose proof (iteration_cases (fun _ => True)
                (fun _ _ _ _ _ _ _ _ => I) (fun _ _ _ _ _ _ _ _ => I)
                (fun _ _ _ _ _ _ _ => I) _ _ _ _ I Hit) as [_ [_ Hlt]].
  apply IH. lia.
Qed.

Lemma main_loop_more_fuel (fuel : nat) :
  forall manager s x,
    Shell.main_loop float_of_str fsum fuel manager s = Some x ->
    forall fuel', (fuel <= fuel')%nat ->
      Shell.main_loop float_of_str fsum fuel' manager s = Some x.
Proof.
  induction fuel as [|fuel IH]; intros manager s x; simpl; [discriminate|].
  intros Hrun [|fuel'] Hle; [lia|]. simpl.
  destruct (Shell.iteration float_of_str fsum manager s) as [[[m'|]|e] s1];
    try exact Hrun.
  apply (IH _ _ _ Hrun). lia.
Qed.

End Main.

Section Sessions.

Variable float_of_str : string -> option float.
Variable fsum : list float -> float.

Lemma main_unfold (fuel : nat) (s : Shell.session) :
  exists r w,
    BudgetManager.init (mkWorld (Shell.term_in s) [] (Shell.file s)) = (r, w)
    /\ Shell.main float_of_str fsum fuel s
       = match r with
         | Ok manager =>
             Shell.main_loop float_of_str fsum fuel manager
               (Shell.mkSession (Shell.term_in s)
                  ((Shell.term_out s ++ [Shell.Welcome]) ++ map Shell.Core (stdout w))
                  (Shell.file s))
         | Raise e =>
             Some (Raise e,
                   Shell.mkSession (Shell.term_in s)
                     ((Shell.term_out s ++ [Shell.Welcome]) ++ map Shell.Core (stdout w))
                     (Shell.file s))
         end.
Proof.
  destruct s as [ins out d]. cbn [Shell.term_in Shell.term_out Shell.file].
  destruct (BudgetManager.init (mkWorld ins [] d)) as [r w] eqn:Hinit.
  exists r, w. split; [reflexivity|].
  destruct (init_cases _ _ _ Hinit) as [-> _].
  unfold Shell.main. shell_exec. rewrite Hinit. destruct r; reflexivity.
Qed.

(** [main] ends on every finite input: with more rounds allowed than there
    are lines to read it gives a result, by [break] or by an exception, and
    allowing still more rounds gives the same result. *)
Theorem main_returns (fuel : nat) (s : Shell.session) :
  (List.length (Shell.term_in s) < fuel)%nat ->
  exists r s',
    forall fuel', (fuel <= fuel')%nat ->
      Shell.main float_of_str fsum fuel' s = Some (r, s').
Proof.
  intros Hlen.
  destruct (main_unfold fuel s) as [r [w [Hinit Hmain]]].
  destruct r as [manager|e].
  - destruct (main_loop_returns float_of_str fsum fuel manager
                (Shell.mkSession (Shell.term_in s)
                   ((Shell.term_out s ++ [Shell.Welcome]) ++ map Shell.Core (stdout w))
                   (Shell.file s)) Hlen) as [r [s' Hrun]].
    exists r, s'. intros fuel' Hle.
    destruct (main_unfold fuel' s) as [r' [w' [Hinit' Hmain']]].
    rewrite Hinit in Hinit'. inversion Hinit'; subst r' w'.
    rewrite Hmain'. exact (main_loop_more_fuel _ _ _ _ _ _ Hrun _ Hle).
  - eexists. eexists. intros fuel' Hle.
    destruct (main_unfold fuel' s) as [r' [w' [Hinit' Hmain']]].
    rewrite Hinit in Hinit'. inversion Hinit'; subst r' w'.
    exact Hmain'.
Qed.

(** The data file is written at [break] only: a session that ends with an
    exception leaves the file as it found it, whatever was added, spent or
    removed before. *)
Theorem main_exception_keeps_file (fuel : nat) (s s' : Shell.session) (e : exn) :
  Shell.main float_of_str fsum fuel s = Some (Raise e, s') ->
  Shell.file s' = Shell.file s.
Proof.
  destruct (main_unfold fuel s) as [r [w [Hinit Hmain]]]. rewrite Hmain.
  destruct r as [manager|e0].
  - intros Hrun.
    exact (main_loop_cases float_of_str fsum (fun _ => True)
             (fun _ _ _ _ _ _ _ _ => I) (fun _ _ _ _ _ _ _ _ => I)
             (fun _ _ _ _ _ _ _ => I) _ _ _ _ _ I Hrun).
  - intros H; inversion H; subst. reflexivity.
Qed.

Lemma is_dict_add_category (m m' : BudgetManager.t) (name : string) (x : float)
    (w w' : world) :
  Dict.is_dict (BudgetManager.categories m) ->
  BudgetManager.add_category float_of_str m name x w = (Ok m', w') ->
  Dict.is_dict (BudgetManager.categories m').
Proof.
  intros Hm Hop.
  destruct (add_category_effect _ _ _ _ _ _ _ Hop) as [->|[_ [Hnone [lim Hnew]]]];
    [exact Hm|].
  rewrite Hnew, <- (set_absent _ _ _ Hnone). apply is_dict_set. exact Hm.
Qed.

Lemma is_dict_add_expense (m m' : BudgetManager.t) (name : string) (x : float)
    (w w' : world) :
  Dict.is_dict (BudgetManager.categories m) ->
  BudgetManager.add_expense m name x w = (Ok m', w') ->
  Dict.is_dict (BudgetManager.categories m').
Proof.
  intros Hm Hop.
  destruct (manager_add_expense_effect _ _ _ _ _ _ Hop)
    as [->|[c [c' [_ [_ Hnew]]]]]; [exact Hm|].
  rewrite Hnew. apply is_dict_set. exact Hm.
Qed.

Lemma is_dict_remove_category (m m' : BudgetManager.t) (name : string)
    (w w' : world) :
  Dict.is_dict (BudgetManager.categories m) ->
  BudgetManager.remove_category m name w = (Ok m', w') ->
  Dict.is_dict (BudgetManager.categories m').
Proof.
  intros Hm Hop.
  destruct (remove_category_effect _ _ _ _ _ Hop) as [->|Hnew]; [exact Hm|].
  rewrite Hnew. apply is_dict_del. exact Hm.
Qed.

(** A loop that ends by [break] has written the dump of the manager it
    held at that point. *)
Lemma main_loop_break (fuel : nat) :
  forall manager s s',
    Dict.is_dict (BudgetManager.categories manager) ->
    Shell.main_loop float_of_str fsum fuel manager s = Some (Ok tt, s') ->
    exists m,
      manager_at_break float_of_str fsum fuel manager s = Some m
      /\ Dict.is_dict (BudgetManager.categories m)
      /\ Shell.file s'
         = Some (VDict (BudgetManager.dump_items (BudgetManager.categories m))).
Proof.
  induction fuel as [|fuel IH]; intros manager s s' Hm; simpl; [discriminate|].
  destruct (Shell.iteration float_of_str fsum manager s) as [[[m'|]|e] s1] eqn:Hit;
    pose proof (iteration_cases float_of_str fsum
                  (fun m => Dict.is_dict (BudgetManager.categories m))
                  (fun m name x w m' w' => is_dict_add_category m m' name x w w')
                  (fun m name x w m' w' => is_dict_add_expense m m' name x w w')
                  (fun m name w m' w' => is_dict_remove_category m m' name w w')
                  _ _ _ _ Hm Hit) as Hc.
  - destruct Hc as [Hm' _]. exact (IH _ _ _ Hm').
  - intros H. inversion H. subst. exists manager. auto.
  - discriminate.
Qed.

(** In a session that ends by "5", the file left behind is the dump of the
    manager [main] held at [break], the one its rounds had built, and the
    next [BudgetManager()] loads that very manager from it, without
    exception. *)
Theorem main_saved_session_reloads (fuel : nat) (s s' : Shell.session) :
  annotated_file (Shell.file s) ->
  Shell.main float_of_str fsum fuel s = Some (Ok tt, s') ->
  exists m,
    session_manager float_of_str fsum fuel s = Some m
    /\ Shell.file s'
       = Some (VDict (BudgetManager.dump_items (BudgetManager.categories m)))
    /\ forall ins out,
         BudgetManager.init (mkWorld ins out (Shell.file s'))
         = (Ok m, mkWorld ins out (Shell.file s')).
Proof.
  intros _. destruct s as [ins0 out0 d0].
  unfold Shell.main, session_manager, Shell.sbind, Shell.say, Shell.call.
  cbn [Shell.term_in Shell.term_out Shell.file].
  destruct (BudgetManager.init (mkWorld ins0 [] d0)) as [r w] eqn:Hinit.
  destruct (init_cases _ _ _ Hinit) as [_ Hr].
  destruct r as [manager|e]; [|discriminate].
  destruct Hr as [Hd _]. intros Hrun.
  destruct (main_loop_break _ _ _ _ Hd Hrun) as [m [Hat [Hm Hfile]]].
  exists m. split; [exact Hat|]. split; [exact Hfile|]. intros ins out.
  rewrite Hfile. destruct m as [cats]. apply init_after_dump. exact Hm.
Qed.

(** A session that starts with no data file and ends by "5" saves a
    dictionary in which every key is in lowercase and every category is
    stored under its own name. *)
Theorem fresh_session_saves_normalised (fuel : nat) (s s' : Shell.session) :
  Shell.file s = None ->
  Shell.main float_of_str fsum fuel s = Some (Ok tt, s') ->
  exists m,
    lowercase_keys m
    /\ names_match_keys m
    /\ Shell.file s'
       = Some (VDict (BudgetManager.dump_items (BudgetManager.categories m))).
Proof.
  intros Hnone.
  destruct (main_unfold fuel s) as [r [w [Hinit Hmain]]]. rewrite Hmain.
  destruct r as [manager|e0]; [|discriminate].
  destruct (init_cases _ _ _ Hinit) as [_ [_ Hempty]].
  specialize (Hempty Hnone). subst manager. intros Hrun.
  destruct (main_loop_cases float_of_str fsum
              (fun m => lowercase_keys m /\ names_match_keys m)) with
    (5 := Hrun) as [m [[Hl Hn] Hfile]].
  - intros m name x w0 m' w0' [Hl Hn] Hop. split.
    + exact (lowercase_keys_add_category _ _ _ _ _ _ _ Hl Hop).
    + exact (proj1 (names_match_keys_steps float_of_str _ _ name x w0 w0' Hn) Hop).
  - intros m name x w0 m' w0' [Hl Hn] Hop. split.
    + exact (lowercase_keys_add_expense _ _ _ _ _ _ Hl Hop).
    + exact (proj1 (proj2 (names_match_keys_steps float_of_str _ _ name x w0 w0' Hn))
               Hop).
  - intros m name w0 m' w0' [Hl Hn] Hop. split.
    + exact (lowercase_keys_remove_category _ _ _ _ _ Hl Hop).
    + exact (proj2 (proj2 (names_match_keys_steps float_of_str _ _ name 0%float
                             w0 w0' Hn)) Hop).
  - split; constructor.
  - exists m. auto.
Qed.

(** Asking for the summary before any category exists ends the program:
    on a first run the choice "4" makes [main] stop with
    [UnboundLocalError], whatever input follows, and no file is written. *)
Theorem summary_of_empty_ends_session (fuel : nat) (line : string)
    (rest : list string) (out : list Shell.shell_message) :
  PyStr.strip line = "4" ->
  Shell.main float_of_str fsum (S fuel) (Shell.mkSession (line :: rest) out None)
  = Some (Raise (UnboundLocalError "total_spent"),
          Shell.mkSession rest
            (out ++ [Shell.Welcome; Shell.ChooseOption; Shell.MenuAdd;
                     Shell.MenuRemove; Shell.MenuExpense; Shell.MenuSummary;
                     Shell.MenuSave; Shell.AskChoice;
                     Shell.Core SummaryBanner; Shell.Core SummaryColumns;
                     Shell.Core SummaryRule])
            None).
Proof.
  intros Hchoice. unfold Shell.main. shell_exec.
  change (BudgetManager.init (mkWorld (line :: rest) [] None))
    with (Ok (BudgetManager.mk []), mkWorld (line :: rest) [] None).
  cbn [Shell.main_loop stdin stdout disk map]. unfold Shell.iteration.
  shell_exec. rewrite Hchoice. cbn. rewrite <- !app_assoc. reflexivity.
Qed.

End Sessions.

Lemma main_returns_witness :
  exists r s',
    forall fuel', (3 <= fuel')%nat ->
      Shell.main Sample.float_of_decimal Sample.sum_left fuel'
        (Shell.mkSession ["1"; "Food"] [] None)
      = Some (r, s').
Proof.
  apply (main_returns Sample.float_of_decimal Sample.sum_left 3
           (Shell.mkSession ["1"; "Food"] [] None)).
  simpl. lia.
Defined.

Lemma main_exception_keeps_file_witness :
  SampleSession.run SampleSession.cut_short
  = Some (Raise EOFError, SampleSession.cut_short_end)
  /\ Shell.file SampleSession.cut_short_end = None.
Proof.
  split; [vm_compute; reflexivity|].
  refine (main_exception_keeps_file Sample.float_of_decimal Sample.sum_left 5
            (Shell.mkSession SampleSession.cut_short [] None)
            SampleSession.cut_short_end EOFError _).
  vm_compute. reflexivity.
Defined.

Lemma main_saved_session_reloads_witness :
  let m := BudgetManager.mk [("food", BudgetCategory.mk "food" 200 50)] in
  let saved :=
    Some (VDict [("food", VDict [("name", VStr "food"); ("limit", VFloat 200);
                                 ("spent", VFloat 50)])]) in
  exists m',
    session_manager Sample.float_of_decimal Sample.sum_left 5
      (Shell.mkSession SampleSession.saved [] None) = Some m'
    /\ saved = Some (VDict (BudgetManager.dump_items (BudgetManager.categories m')))
    /\ forall ins out,
         BudgetManager.init (mkWorld ins out saved) = (Ok m', mkWorld ins out saved).
Proof.
  refine (main_saved_session_reloads Sample.float_of_decimal Sample.sum_left 5
            (Shell.mkSession SampleSession.saved [] None)
            SampleSession.saved_end I _).
  vm_compute. reflexivity.
Defined.

Lemma fresh_session_saves_normalised_witness :
  exists m,
    lowercase_keys m
    /\ names_match_keys m
    /\ Some (VDict [("dog treats",
                     VDict [("name", VStr "dog treats"); ("limit", VFloat 40);
                            ("spent", VFloat 0)])])
       = Some (VDict (BudgetManager.dump_items (BudgetManager.categories m))).
Proof.
  refine (fresh_session_saves_normalised Sample.float_of_decimal Sample.sum_left 5
            (Shell.mkSession SampleSession.treats [] None)
            SampleSession.treats_end eq_refl _).
  vm_compute. reflexivity.
Defined.

Lemma summary_of_empty_ends_session_witness :
  Shell.main Sample.float_of_decimal Sample.sum_left 1
    (Shell.mkSession [" 4"; "5"] [] None)
  = Some (Raise (UnboundLocalError "total_spent"),
          Shell.mkSession ["5"]
            [Shell.Welcome; Shell.ChooseOption; Shell.MenuAdd;
             Shell.MenuRemove; Shell.MenuExpense; Shell.MenuSummary;
             Shell.MenuSave; Shell.AskChoice;
             Shell.Core SummaryBanner; Shell.Core SummaryColumns;
             Shell.Core SummaryRule]
            None).
Proof.
  exact (summary_of_empty_ends_session Sample.float_of_decimal Sample.sum_left
           0 " 4" ["5"] [] eq_refl).
Defined.

(** ** What the operations leave alone, and what they refuse *)

(** Only [save_data] writes the data file: adding a category, adding an
    expense, removing a category and showing the summary leave the file as
    it is, and none of them gives back input it has read. *)
Theorem only_save_writes_file (float_of_str : string -> option float)
    (fsum : list float -> float) (self : BudgetManager.t) (name : string)
    (x : float) :
  reads_only (BudgetManager.add_category float_of_str self name x)
  /\ reads_only (BudgetManager.add_expense self name x)
  /\ reads_only (BudgetManager.remove_category self name)
  /\ reads_only (BudgetManager.show_summary fsum self).
Proof.
  split; [|split; [|split]].
  - apply add_category_reads_only.
  - apply manager_add_expense_reads_only.
  - apply remove_category_reads_only.
  - apply show_summary_reads_only.
Qed.

(** A name that is not a key, as given and without trimming or lowercasing,
    makes [add_expense] and [remove_category] write "No such category", read
    nothing and return the manager unchanged. *)
Theorem unknown_category_reported (self : BudgetManager.t) (name : string)
    (amount : float) (w : world) :
  Dict.get name (BudgetManager.categories self) = None ->
  BudgetManager.add_expense self name amount w
  = (Ok self, emit (NoSuchCategory name) w)
  /\ BudgetManager.remove_category self name w
     = (Ok self, emit (NoSuchCategory name) w).
Proof.
  intros Hget. unfold BudgetManager.add_expense, BudgetManager.remove_category,
    Dict.mem. rewrite Hget. split; reflexivity.
Qed.

Lemma unknown_category_reported_witness :
  let self := BudgetManager.mk [("food", BudgetCategory.mk "food" 200 0)] in
  BudgetManager.add_expense self "food " 50 Sample.quiet
  = (Ok self, mkWorld [] [NoSuchCategory "food "] None)
  /\ BudgetManager.remove_category self "food " Sample.quiet
     = (Ok self, mkWorld [] [NoSuchCategory "food "] None).
Proof.
  exact (unknown_category_reported
           (BudgetManager.mk [("food", BudgetCategory.mk "food" 200 0)])
           "food " 50 Sample.quiet eq_refl).
Defined.

(** A round of [main] that is given a choice outside "1".."5", or a limit
    or an amount that [float] cannot read, says so and goes round again with
    the manager and the file as they were; the name typed before an
    unreadable number is simply dropped. *)
Theorem iteration_rejects_bad_input (float_of_str : string -> option float)
    (fsum : list float -> float) (manager : BudgetManager.t)
    (choice : string) (out : list Shell.shell_message) (d : option value) :
  (forall rest,
      ~ In (PyStr.strip choice) ["1"; "2"; "3"; "4"; "5"] ->
      Shell.iteration float_of_str fsum manager
        (Shell.mkSession (choice :: rest) out d)
      = (Ok (Some manager),
         Shell.mkSession rest (out ++ menu ++ [Shell.InvalidChoice]) d))
  /\ (forall name number rest,
        PyStr.strip choice = "1" ->
        float_of_str number = None ->
        Shell.iteration float_of_str fsum manager
          (Shell.mkSession (choice :: name :: number :: rest) out d)
        = (Ok (Some manager),
           Shell.mkSession rest
             (out ++ menu ++ [Shell.AskNewName; Shell.AskLimit (PyStr.strip name);
                              Shell.InvalidNumber]) d))
  /\ (forall name number rest,
        PyStr.strip choice = "3" ->
        float_of_str number = None ->
        Shell.iteration float_of_str fsum manager
          (Shell.mkSession (choice :: name :: number :: rest) out d)
        = (Ok (Some manager),
           Shell.mkSession rest
             (out ++ menu ++ [Shell.AskExpenseName; Shell.AskAmount;
                              Shell.InvalidNumber]) d)).
Proof.
  unfold Shell.iteration, menu. split; [|split].
  - intros rest Hout. shell_exec.
    repeat match goal with
           | |- context [String.eqb (PyStr.strip choice) ?c] =>
               destruct (String.eqb_spec (PyStr.strip choice) c) as [E|_];
               [exfalso; apply Hout; rewrite E; simpl; tauto|]
           end.
    rewrite <- !app_assoc. reflexivity.
  - intros name number rest Hc Hn. shell_exec. rewrite Hc.
    cbn [String.eqb Ascii.eqb Bool.eqb]. shell_exec. rewrite Hn. shell_exec.
    rewrite <- !app_assoc. reflexivity.
  - intros name number rest Hc Hn. shell_exec. rewrite Hc.
    cbn [String.eqb Ascii.eqb Bool.eqb]. shell_exec. rewrite Hn. shell_exec.
    rewrite <- !app_assoc. reflexivity.
Qed.

Lemma iteration_rejects_bad_input_witness :
  Shell.iteration Sample.float_of_decimal Sample.sum_left (BudgetManager.mk [])
    (Shell.mkSession ["7"; "5"] [] None)
  = (Ok (Some (BudgetManager.mk [])),
     Shell.mkSession ["5"] ([] ++ menu ++ [Shell.InvalidChoice]) None)
  /\ Shell.iteration Sample.float_of_decimal Sample.sum_left (BudgetManager.mk [])
       (Shell.mkSession ["1"; " Food"; "plenty"; "5"] [] None)
     = (Ok (Some (BudgetManager.mk [])),
        Shell.mkSession ["5"]
          ([] ++ menu ++ [Shell.AskNewName; Shell.AskLimit "Food";
                          Shell.InvalidNumber]) None).
Proof.
  split.
  - refine (proj1 (iteration_rejects_bad_input Sample.float_of_decimal
                     Sample.sum_left (BudgetManager.mk []) "7" [] None)
              ["5"] _).
    simpl. intuition discriminate.
  - exact (proj1 (proj2 (iteration_rejects_bad_input Sample.float_of_decimal
                           Sample.sum_left (BudgetManager.mk []) "1" [] None))
             " Food" "plenty" ["5"] eq_refl eq_refl).
Defined.

(** ** Why [Shell.call] may start a method on a blank terminal *)

Ltac appended :=
  cbv beta iota zeta delta
    [bind ret raise print input emit stdin stdout disk fst snd orb negb];
  repeat match goal with
         | |- context [match ?x with nil => _ | cons _ _ => _ end] =>
             is_var x; destruct x
         | |- context [match ?x with _ => _ end] => destruct x eqn:?
         end;
  simpl; rewrite <- ?app_assoc, ?app_nil_r; reflexivity.

Lemma category_add_expense_appends_only (self : BudgetCategory.t) (amount : float) :
  appends_only (BudgetCategory.add_expense self amount).
Proof.
  intros ins out d. unfold BudgetCategory.add_expense. appended.
Qed.

Lemma add_category_appends_only (float_of_str : string -> option float)
    (self : BudgetManager.t) (name : string) (limit : float) :
  appends_only (BudgetManager.add_category float_of_str self name limit).
Proof.
  intros ins out d. unfold BudgetManager.add_category. appended.
Qed.

Lemma remove_category_appends_only (self : BudgetManager.t) (name : string) :
  appends_only (BudgetManager.remove_category self name).
Proof.
  intros ins out d. unfold BudgetManager.remove_category. appended.
Qed.

Lemma manager_add_expense_appends_only (self : BudgetManager.t) (name : string)
    (amount : float) :
  appends_only (BudgetManager.add_expense self name amount).
Proof.
  intros ins out d. unfold BudgetManager.add_expense.
  destruct (Dict.get name (BudgetManager.categories self)) as [c|];
    [|reflexivity].
  unfold bind.
  rewrite (category_add_expense_appends_only c amount ins out d).
  destruct (BudgetCategory.add_expense c amount (mkWorld ins [] d))
    as [[c'|e] [ins' out' d']]; simpl; unfold ret, emit; simpl;
    rewrite <- ?app_assoc; reflexivity.
Qed.

Lemma show_summary_writes (fsum : list float -> float) (self : BudgetManager.t) :
  exists r msgs,
    forall w, BudgetManager.show_summary fsum self w = (r, write msgs w).
Proof.
  assert (Hrun : forall w,
    BudgetManager.show_summary fsum self w
    = match Dict.values (BudgetManager.categories self) with
      | [] => (Raise (UnboundLocalError "total_spent"),
               write [SummaryBanner; SummaryColumns; SummaryRule] w)
      | _ :: _ =>
          (Ok tt,
           write ([SummaryBanner; SummaryColumns; SummaryRule]
                  ++ flat_map summary_lines
                       (Dict.values (BudgetManager.categories self))
                  ++ [TotalSpent
                        (fsum (map BudgetCategory.spent
                                 (Dict.values (BudgetManager.categories self))))])
             w)
      end).
  { intros w. unfold BudgetManager.show_summary.
    do 3 (unfold bind at 1; unfold print at 1).
    unfold bind at 1. rewrite summary_loop_runs.
    destruct (Dict.values (BudgetManager.categories self));
      unfold raise, print, write, emit; simpl; rewrite <- ?app_assoc;
      reflexivity. }
  destruct (Dict.values (BudgetManager.categories self)); eauto.
Qed.

Lemma show_summary_appends_only (fsum : list float -> float)
    (self : BudgetManager.t) :
  appends_only (BudgetManager.show_summary fsum self).
Proof.
  intros ins out d. destruct (show_summary_writes fsum self) as [r [msgs H]].
  rewrite !H. reflexivity.
Qed.

Lemma save_data_appends_only (self : BudgetManager.t) :
  appends_only (BudgetManager.save_data self).
Proof.
  intros ins out d. unfold BudgetManager.save_data. simpl.
  rewrite app_nil_r. reflexivity.
Qed.

Lemma init_appends_only : appends_only BudgetManager.init.
Proof.
  intros ins out d. unfold BudgetManager.init, BudgetManager.load_data. simpl.
  destruct d as [[ | | | | | |items]|]; simpl; rewrite ?app_nil_r;
    try reflexivity.
  destruct (BudgetManager.load_items items []); simpl; rewrite app_nil_r;
    reflexivity.
Qed.
